(** * EloModel: a shallow embedding of [src/python/utils/elo_model.py]

    The module under study is the class [EloModel]: a context-adjusted ELO
    rating engine (update path), a predictor built on the same formulas
    (prediction path), an evaluator and a ranking report.

    Modelling choices, all read off the Python source:

    - Python floats are idealised as the real numbers [R]; [10 ** x] is
      [Rpower 10 x], [np.log] is [ln], [abs] is [Rabs].  Overflow, rounding
      and NaN are outside the model.
    - [self.params] and a [game] row are dictionaries that the code only
      ever reads at fixed keys, either with [d.get(key, default)] or with
      [d[key]].  They are records with one optional field per key; an
      absent key is [None].  [d[key]] on an absent key raises [KeyError].
    - [self.ratings] is a Python [dict]: an association list in insertion
      order, because [get_rankings] exposes that order through the stable
      [sorted].
    - Methods that write to [self] live in a state-and-exception monad;
      methods that only read [self] are functions of [self] returning a
      [result].
    - The class body defines [predict_goals], [predict_winner], [fit],
      [evaluate], [get_rankings] and [get_rating_history_df] twice.  In
      Python the later [def] replaces the earlier one, so the methods of the
      class are the later ones (lines 259-353).  The replaced definitions
      are kept under the suffix [_shadowed] for comparison. *)

From Stdlib Require Import Reals Lra List String Bool ZArith Lia.
From Stdlib Require Import Sorting.Permutation Sorting.Sorted.
Import ListNotations.

Open Scope string_scope.
Open Scope R_scope.

(** ** Python values and exceptions *)

(** The values an outcome column can hold: a string code, a number or a
    boolean. *)
Inductive pyval : Type :=
  | PyStr (s : string)
  | PyNum (x : R)
  | PyBool (b : bool).

(** A boolean used as a number: [True == 1], [False == 0]. *)
Definition bool_num (b : bool) : R := if b then 1 else 0.

(** Python [a == b] on these values. *)
Definition py_eqb (a b : pyval) : bool :=
  match a, b with
  | PyStr s, PyStr t => String.eqb s t
  | PyNum x, PyNum y => if Req_dec_T x y then true else false
  | PyNum x, PyBool c => if Req_dec_T x (bool_num c) then true else false
  | PyBool c, PyNum y => if Req_dec_T (bool_num c) y then true else false
  | PyBool c, PyBool d => Bool.eqb c d
  | _, _ => false
  end.

(** Python [x in xs]. *)
Definition py_in (x : pyval) (xs : list pyval) : bool := existsb (py_eqb x) xs.

(** Python truthiness, as used by [if game['home_win']]. *)
Definition truthy (v : pyval) : bool :=
  match v with
  | PyStr s => negb (String.eqb s "")
  | PyNum x => if Req_dec_T x 0 then false else true
  | PyBool b => b
  end.

Inductive exn : Type :=
  | KeyError (key : string)
  | ValueError (msg : string).

Inductive result (A : Type) : Type :=
  | Ok (a : A)
  | Raise (e : exn).
Arguments Ok {A} a.
Arguments Raise {A} e.

(** [d.get(key, default)] on an optional field. *)
Definition get {A : Type} (field : option A) (default : A) : A :=
  match field with
  | Some v => v
  | None => default
  end.

(** [d[key]] on an optional field. *)
Definition getitem {A : Type} (key : string) (field : option A) : result A :=
  match field with
  | Some v => Ok v
  | None => Raise (KeyError key)
  end.

(** ** Python dictionaries keyed by strings, in insertion order *)

Module PyDict.

Definition t (V : Type) : Type := list (string * V).

Definition empty {V : Type} : t V := [].

(** [d.get(k)] as an option: the value of the first binding of [k]. *)
Fixpoint lookup {V : Type} (d : t V) (k : string) : option V :=
  match d with
  | [] => None
  | (k', v) :: d' => if String.eqb k k' then Some v else lookup d' k
  end.

(** [d[k] = v]: overwrite in place when [k] is bound, else append. *)
Fixpoint setitem {V : Type} (d : t V) (k : string) (v : V) : t V :=
  match d with
  | [] => [(k, v)]
  | (k', v') :: d' =>
      if String.eqb k k' then (k', v) :: d' else (k', v') :: setitem d' k v
  end.

(** [d.items()]. *)
Definition items {V : Type} (d : t V) : list (string * V) := d.

Definition keys {V : Type} (d : t V) : list string := map fst d.

End PyDict.

(** ** Configuration, match records and the model object *)

(** [self.params]: the keys documented in [__init__]. *)
Record Params : Type := mkParams {
  k_factor : option R;
  home_advantage : option R;
  initial_rating : option R;
  mov_multiplier : option R;
  mov_method : option string;
  season_carryover : option R;
  ot_win_multiplier : option R;
  rest_advantage_per_day : option R;
  b2b_penalty : option R
}.

(** A [game]: one row of the games table, or a plain dict. *)
Record Game : Type := mkGame {
  home_team : option string;
  away_team : option string;
  home_goals : option R;
  away_goals : option R;
  home_rest : option R;
  away_rest : option R;
  away_travel_dist : option R;
  travel_distance : option R;
  home_injuries : option R;
  away_injuries : option R;
  injuries : option R;
  home_outcome : option pyval;
  home_win : option pyval
}.

(** An entry of [self.rating_history]. *)
Record HistoryRecord : Type := mkHistory {
  h_home_team : string;
  h_away_team : string;
  h_home_rating : R;
  h_away_rating : R
}.

Record EloModel : Type := mkEloModel {
  params : Params;
  ratings : PyDict.t R;
  rating_history : list HistoryRecord
}.

(** [EloModel(params)]. *)
Definition init (p : Params) : EloModel :=
  {| params := p; ratings := PyDict.empty; rating_history := [] |}.

(** ** State-and-exception monad for the methods that write to [self] *)

Definition M (A : Type) : Type := EloModel -> EloModel * result A.

Definition ret {A : Type} (a : A) : M A := fun self => (self, Ok a).

Definition bind {A B : Type} (c : M A) (k : A -> M B) : M B :=
  fun self =>
    match c self with
    | (self', Ok a) => k a self'
    | (self', Raise e) => (self', Raise e)
    end.

Notation "x <- c ;; k" := (bind c (fun x => k))
  (at level 61, c at next level, right associativity).
Notation "c ;;; k" := (bind c (fun _ => k))
  (at level 61, right associativity).

(** Read [self]. *)
Definition gets {A : Type} (f : EloModel -> A) : M A :=
  fun self => (self, Ok (f self)).

(** Run a computation that cannot write. *)
Definition lift {A : Type} (r : result A) : M A := fun self => (self, r).

(** [self.ratings[team] = v]. *)
Definition ratings_setitem (team : string) (v : R) : M unit :=
  fun self =>
    ({| params := params self;
        ratings := PyDict.setitem (ratings self) team v;
        rating_history := rating_history self |}, Ok tt).

(** [self.ratings[team]]. *)
Definition ratings_getitem (team : string) : M R :=
  fun self => (self, getitem team (PyDict.lookup (ratings self) team)).

(** [self.rating_history.append(rec)]. *)
Definition history_append (rec : HistoryRecord) : M unit :=
  fun self =>
    ({| params := params self;
        ratings := ratings self;
        rating_history := rating_history self ++ [rec] |}, Ok tt).

(** Error monad for the read-only methods. *)
Definition rbind {A B : Type} (r : result A) (k : A -> result B) : result B :=
  match r with
  | Ok a => k a
  | Raise e => Raise e
  end.

Notation "x <-r r ;; k" := (rbind r (fun x => k))
  (at level 61, r at next level, right associativity).

(** ** Comparisons on reals as booleans *)

Definition Rleb (x y : R) : bool := if Rle_dec x y then true else false.
Definition Rgtb (x y : R) : bool := if Rgt_dec x y then true else false.
Definition Reqb (x y : R) : bool := if Req_dec_T x y then true else false.

(** [sum(xs)]. *)
Definition Rsum (xs : list R) : R := fold_right Rplus 0 xs.

(** ** The methods of [EloModel] *)

(** The local dict [division_ratings] of [initialize_ratings]. *)
Definition division_ratings (initial : R) : PyDict.t R :=
  [("D1", initial + 100); ("D2", initial); ("D3", initial - 100)].

(** The [for i, team in enumerate(teams)] loop of [initialize_ratings],
    from index [i] on.  [divisions[i]] is positional in both branches of
    the [hasattr(divisions, 'iloc')] test. *)
Fixpoint initialize_from (initial : R) (divisions : option (list string))
    (i : nat) (teams : list string) : M unit :=
  match teams with
  | [] => ret tt
  | team :: teams' =>
      match divisions with
      | Some ds =>
          match nth_error ds i with
          | Some div =>
              ratings_setitem team
                (get (PyDict.lookup (division_ratings initial) div) initial)
          | None => ratings_setitem team initial
          end
      | None => ratings_setitem team initial
      end ;;;
      initialize_from initial divisions (S i) teams'
  end.

(** [initialize_ratings(self, teams, divisions=None)], lines 40-54. *)
Definition initialize_ratings (teams : list string)
    (divisions : option (list string)) : M unit :=
  initial <- gets (fun self => get (initial_rating (params self)) 1500) ;;
  initialize_from initial divisions 0 teams.

(** [calculate_expected_score(self, team_elo, opponent_elo)], lines 56-58. *)
Definition calculate_expected_score (team_elo opponent_elo : R) : R :=
  1 / (1 + Rpower 10 ((opponent_elo - team_elo) / 400)).

(** [calculate_mov_multiplier(self, goal_diff)], lines 60-68. *)
Definition calculate_mov_multiplier (self : EloModel) (goal_diff : R) : R :=
  let mov := get (mov_multiplier (params self)) 0 in
  if Reqb mov 0 then 1.0
  else if String.eqb (get (mov_method (params self)) "logarithmic") "linear"
  then 1 + (Rabs goal_diff * mov)
  else 1 + (ln (Rabs goal_diff + 1) * mov).

(** [get_actual_score(self, outcome)], lines 70-78. *)
Definition get_actual_score (self : EloModel) (outcome : pyval) : R :=
  if py_in outcome [PyStr "RW"; PyStr "W"; PyNum 1] then 1.0
  else if py_eqb outcome (PyStr "OTW")
  then get (ot_win_multiplier (params self)) 0.75
  else if py_eqb outcome (PyStr "OTL")
  then 1 - get (ot_win_multiplier (params self)) 0.75
  else 0.0.

(** [adjust_for_context(self, team_elo, is_home, rest_time, travel_dist,
    injuries)], lines 80-99. *)
Definition adjust_for_context (self : EloModel) (team_elo : R)
    (is_home : bool) (rest_time travel_dist injuries : R) : R :=
  let adjusted := team_elo in
  let adjusted :=
    if is_home then adjusted + get (home_advantage (params self)) 0
    else adjusted in
  let adjusted :=
    if Rleb rest_time 1 then adjusted - get (b2b_penalty (params self)) 0
    else adjusted in
  let adjusted :=
    if negb is_home && Rgtb travel_dist 0
    then adjusted - (travel_dist / 1000) * 15
    else adjusted in
  adjusted - injuries * 25.

(** Lines 106-126 of [update_ratings]: the base ratings, the context values
    with their defaults, the contextual adjustments, the rest differential
    and the expected score of the home side. *)
Definition home_expected_update (self : EloModel)
    (home_team_id away_team_id : string) (game : Game) : R :=
  let home_elo := get (PyDict.lookup (ratings self) home_team_id) 1500 in
  let away_elo := get (PyDict.lookup (ratings self) away_team_id) 1500 in
  let home_rest_v := get (home_rest game) 2 in
  let away_rest_v := get (away_rest game) 2 in
  let away_travel := get (away_travel_dist game) (get (travel_distance game) 0) in
  let home_injuries_v := get (home_injuries game) (get (injuries game) 0) in
  let away_injuries_v := get (away_injuries game) (get (injuries game) 0) in
  let home_adj :=
    adjust_for_context self home_elo true home_rest_v 0 home_injuries_v in
  let away_adj :=
    adjust_for_context self away_elo false away_rest_v away_travel
      away_injuries_v in
  let rest_diff := home_rest_v - away_rest_v in
  let home_adj :=
    home_adj + rest_diff * get (rest_advantage_per_day (params self)) 0 in
  calculate_expected_score home_adj away_adj.

(** Lines 128-134 of [update_ratings]: the outcome column, else the win
    flag, else the comparison of the goals. *)
Definition home_actual_of (self : EloModel) (game : Game) : result R :=
  match home_outcome game with
  | Some outcome => Ok (get_actual_score self outcome)
  | None =>
      match home_win game with
      | Some w => Ok (if truthy w then 1.0 else 0.0)
      | None =>
          hg <-r getitem "home_goals" (home_goals game) ;;
          ag <-r getitem "away_goals" (away_goals game) ;;
          Ok (if Rgtb hg ag then 1.0 else 0.0)
      end
  end.

(** [update_ratings(self, game)], lines 101-151.  Every read of [self]
    before line 142 sees [self] as it was on entry, since nothing is written
    earlier. *)
Definition update_ratings (game : Game) : M unit :=
  home_team_id <- lift (getitem "home_team" (home_team game)) ;;
  away_team_id <- lift (getitem "away_team" (away_team game)) ;;
  home_elo <- gets (fun self => get (PyDict.lookup (ratings self) home_team_id) 1500) ;;
  away_elo <- gets (fun self => get (PyDict.lookup (ratings self) away_team_id) 1500) ;;
  home_expected <-
    gets (fun self => home_expected_update self home_team_id away_team_id game) ;;
  home_actual <- (fun self => lift (home_actual_of self game) self) ;;
  hg <- lift (getitem "home_goals" (home_goals game)) ;;
  ag <- lift (getitem "away_goals" (away_goals game)) ;;
  let goal_diff := hg - ag in
  mov_mult <- gets (fun self => calculate_mov_multiplier self goal_diff) ;;
  k <- gets (fun self => get (k_factor (params self)) 32 * mov_mult) ;;
  ratings_setitem home_team_id (home_elo + k * (home_actual - home_expected)) ;;;
  ratings_setitem away_team_id
    (away_elo + k * ((1 - home_actual) - (1 - home_expected))) ;;;
  home_rating <- ratings_getitem home_team_id ;;
  away_rating <- ratings_getitem away_team_id ;;
  history_append
    {| h_home_team := home_team_id;
       h_away_team := away_team_id;
       h_home_rating := home_rating;
       h_away_rating := away_rating |}.

(** Lines 262-279 of [predict_goals] and, word for word, lines 292-307 of
    [predict_winner]: the same steps as [home_expected_update], with the
    defaults these two methods write. *)
Definition home_expected_predict (self : EloModel)
    (home_team_id away_team_id : string) (game : Game) : R :=
  let home_elo := get (PyDict.lookup (ratings self) home_team_id) 1500 in
  let away_elo := get (PyDict.lookup (ratings self) away_team_id) 1500 in
  let home_elo_adj :=
    adjust_for_context self home_elo true
      (get (home_rest game) 2) 0 (get (home_injuries game) 0) in
  let away_elo_adj :=
    adjust_for_context self away_elo false
      (get (away_rest game) 2) (get (away_travel_dist game) 0)
      (get (away_injuries game) 0) in
  let rest_diff := get (home_rest game) 2 - get (away_rest game) 2 in
  let home_elo_adj :=
    home_elo_adj + rest_diff * get (rest_advantage_per_day (params self)) 0 in
  calculate_expected_score home_elo_adj away_elo_adj.

(** Lines 281-288: from the win probability to the two goal counts. *)
Definition goals_of_prob (home_win_prob : R) : R * R :=
  let expected_diff := (home_win_prob - 0.5) * 12 in
  let home_goals_v := 3.0 + (expected_diff / 2) in
  let away_goals_v := 3.0 - (expected_diff / 2) in
  (home_goals_v, away_goals_v).

(** [predict_goals(self, game)], lines 259-288. *)
Definition predict_goals (self : EloModel) (game : Game) : result (R * R) :=
  home_team_id <-r getitem "home_team" (home_team game) ;;
  away_team_id <-r getitem "away_team" (away_team game) ;;
  let home_win_prob :=
    home_expected_predict self home_team_id away_team_id game in
  Ok (goals_of_prob home_win_prob).

(** [predict_winner(self, game)], lines 290-312. *)
Definition predict_winner (self : EloModel) (game : Game)
    : result (string * R) :=
  home_team_id <-r getitem "home_team" (home_team game) ;;
  away_team_id <-r getitem "away_team" (away_team game) ;;
  let home_win_prob :=
    home_expected_predict self home_team_id away_team_id game in
  if Rgtb home_win_prob 0.5
  then h <-r getitem "home_team" (home_team game) ;; Ok (h, home_win_prob)
  else a <-r getitem "away_team" (away_team game) ;; Ok (a, 1 - home_win_prob).

(** The replaced [predict_goals], lines 153-187: its context values are
    those of [update_ratings]. *)
Definition predict_goals_shadowed (self : EloModel) (game : Game)
    : result (R * R) :=
  home_team_id <-r getitem "home_team" (home_team game) ;;
  away_team_id <-r getitem "away_team" (away_team game) ;;
  let home_win_prob :=
    home_expected_update self home_team_id away_team_id game in
  Ok (goals_of_prob home_win_prob).

(** The replaced [predict_winner], lines 189-216: the travel distance falls
    back to [travel_distance], the injury counts do not fall back. *)
Definition predict_winner_shadowed (self : EloModel) (game : Game)
    : result (string * R) :=
  home_team_id <-r getitem "home_team" (home_team game) ;;
  away_team_id <-r getitem "away_team" (away_team game) ;;
  let home_elo := get (PyDict.lookup (ratings self) home_team_id) 1500 in
  let away_elo := get (PyDict.lookup (ratings self) away_team_id) 1500 in
  let home_adj :=
    adjust_for_context self home_elo true
      (get (home_rest game) 2) 0 (get (home_injuries game) 0) in
  let away_adj :=
    adjust_for_context self away_elo false
      (get (away_rest game) 2)
      (get (away_travel_dist game) (get (travel_distance game) 0))
      (get (away_injuries game) 0) in
  let rest_diff := get (home_rest game) 2 - get (away_rest game) 2 in
  let home_adj :=
    home_adj + rest_diff * get (rest_advantage_per_day (params self)) 0 in
  let home_win_prob := calculate_expected_score home_adj away_adj in
  if Rgtb home_win_prob 0.5
  then Ok (home_team_id, home_win_prob)
  else Ok (away_team_id, 1 - home_win_prob).

(** The loop of [fit], lines 324-326: [update_ratings] on every row, in
    order. *)
Fixpoint fit_loop (games : list Game) : M unit :=
  match games with
  | [] => ret tt
  | game :: games' => update_ratings game ;;; fit_loop games'
  end.

(** [fit(self, games_df)], lines 314-326.  [teams] and [divisions] stand for
    what pandas computes from the frame on lines 317-319; [divisions] is
    [None] when the frame has no [division] column. *)
Definition fit (teams : list string) (divisions : option (list string))
    (games : list Game) : M unit :=
  initialize_ratings teams divisions ;;;
  fit_loop games.

(** ** The three scikit-learn metrics called by [evaluate]

    These are library functions; they follow the definitions in the
    scikit-learn documentation, for the releases whose
    [mean_squared_error] accepts [squared].  All three raise [ValueError]
    on inputs of different lengths or without samples. *)
Module sklearn.

Definition mean (xs : list R) : R := Rsum xs / INR (List.length xs).

Definition check_targets (y_true y_pred : list R) : result unit :=
  if negb (Nat.eqb (List.length y_true) (List.length y_pred))
  then Raise (ValueError "inconsistent numbers of samples")
  else if Nat.eqb (List.length y_true) 0
  then Raise (ValueError "at least one sample is required")
  else Ok tt.

Definition errors (y_true y_pred : list R) : list R :=
  map (fun ap => fst ap - snd ap) (combine y_true y_pred).

Definition mean_squared_error (y_true y_pred : list R) (squared : bool)
    : result R :=
  _ <-r check_targets y_true y_pred ;;
  let mse := mean (map (fun e => e * e) (errors y_true y_pred)) in
  Ok (if squared then mse else sqrt mse).

Definition mean_absolute_error (y_true y_pred : list R) : result R :=
  _ <-r check_targets y_true y_pred ;;
  Ok (mean (map Rabs (errors y_true y_pred))).

Definition r2_score (y_true y_pred : list R) : result R :=
  _ <-r check_targets y_true y_pred ;;
  let ss_res := Rsum (map (fun e => e * e) (errors y_true y_pred)) in
  let y_bar := mean y_true in
  let ss_tot := Rsum (map (fun y => (y - y_bar) * (y - y_bar)) y_true) in
  Ok (if Reqb ss_tot 0
      then (if Reqb ss_res 0 then 1.0 else 0.0)
      else 1 - ss_res / ss_tot).

End sklearn.

(** The dict returned by [evaluate]. *)
Record Metrics : Type := mkMetrics {
  rmse : R;
  mae : R;
  r2 : R
}.

(** The loop of [evaluate], lines 333-336: the lists [predictions] and
    [actuals]. *)
Fixpoint evaluate_loop (self : EloModel) (games : list Game)
    : result (list R * list R) :=
  match games with
  | [] => Ok ([], [])
  | game :: games' =>
      goals <-r predict_goals self game ;;
      actual <-r getitem "home_goals" (home_goals game) ;;
      acc <-r evaluate_loop self games' ;;
      Ok (fst goals :: fst acc, actual :: snd acc)
  end.

(** [len(set(xs))]. *)
Definition len_set (xs : list R) : nat := List.length (nodup Req_dec_T xs).

(** [evaluate(self, games_df)], lines 328-342. *)
Definition evaluate (self : EloModel) (games : list Game) : result Metrics :=
  acc <-r evaluate_loop self games ;;
  let predictions := fst acc in
  let actuals := snd acc in
  rmse_v <-r sklearn.mean_squared_error actuals predictions false ;;
  mae_v <-r sklearn.mean_absolute_error actuals predictions ;;
  r2_v <-r (if Nat.ltb 1 (len_set actuals)
            then sklearn.r2_score actuals predictions
            else Ok 0.0) ;;
  Ok {| rmse := rmse_v; mae := mae_v; r2 := r2_v |}.

(** [sorted(xs, key=lambda x: x[1], reverse=True)]: the stable sort by
    decreasing second component.  Entries with equal keys keep the order
    they have in [xs]. *)
Fixpoint insert_desc (x : string * R) (l : list (string * R))
    : list (string * R) :=
  match l with
  | [] => [x]
  | y :: l' => if Rleb (snd y) (snd x) then x :: y :: l' else y :: insert_desc x l'
  end.

Definition sorted_desc (xs : list (string * R)) : list (string * R) :=
  fold_right insert_desc [] xs.

(** [xs[:n]] for an integer [n]: the first [n] entries, or all but the last
    [-n] when [n] is negative. *)
Definition slice_to {A : Type} (xs : list A) (n : Z) : list A :=
  if Z.leb 0 n then firstn (Z.to_nat n) xs
  else firstn (List.length xs - Z.to_nat (- n)) xs.

(** [get_rankings(self, top_n=None)], lines 344-349.  [if top_n:] holds for
    an integer other than [0]. *)
Definition get_rankings (self : EloModel) (top_n : option Z)
    : list (string * R) :=
  let sorted_ratings := sorted_desc (PyDict.items (ratings self)) in
  match top_n with
  | Some n => if negb (Z.eqb n 0) then slice_to sorted_ratings n else sorted_ratings
  | None => sorted_ratings
  end.

(** ** Notions used in the statements *)

(** The sum of all ratings in the store. *)
Definition ratings_sum (self : EloModel) : R :=
  Rsum (map snd (PyDict.items (ratings self))).

(** A team's current rating as both paths read it:
    [self.ratings.get(team, 1500)]. *)
Definition rating_of (self : EloModel) (team : string) : R :=
  get (PyDict.lookup (ratings self) team) 1500.

(** The effective K of lines 137-141. *)
Definition effective_k (self : EloModel) (hg ag : R) : R :=
  get (k_factor (params self)) 32 * calculate_mov_multiplier self (hg - ag).

(** A record without one of the four mandatory keys. *)
Definition lacks_mandatory_field (game : Game) : Prop :=
  home_team game = None \/ away_team game = None \/
  home_goals game = None \/ away_goals game = None.

(** A record with the four mandatory keys, between two different teams that
    both have a rating in the store [d]. *)
Definition seated_match (d : PyDict.t R) (game : Game) : Prop :=
  exists (h a : string) (hg ag : R),
    home_team game = Some h /\ away_team game = Some a /\
    home_goals game = Some hg /\ away_goals game = Some ag /\
    h <> a /\ In h (PyDict.keys d) /\ In a (PyDict.keys d).

(** Descending order of ratings. *)
Definition rating_ge (x y : string * R) : Prop := snd y <= snd x.

(** ** Sample configurations and records *)

Definition no_params : Params :=
  mkParams None None None None None None None None None.

(** [{'home_team': h, 'away_team': a, 'home_goals': hg, 'away_goals': ag}]. *)
Definition plain_game (h a : string) (hg ag : R) : Game :=
  mkGame (Some h) (Some a) (Some hg) (Some ag)
    None None None None None None None None None.

Definition params_1400 : Params :=
  mkParams None None (Some 1400) None None None None None None.

(** A record whose only travel column is [travel_distance]. *)
Definition travel_game : Game :=
  mkGame (Some "A") (Some "B") (Some 3) (Some 0)
    None None None (Some 1000) None None None None None.

(** A record with [away_injuries] and the shared [injuries] column, but no
    [home_injuries]. *)
Definition injury_game : Game :=
  mkGame (Some "A") (Some "B") (Some 3) (Some 0)
    None None None None None (Some 0) (Some 1) None None.

(** A record without the [home_goals] key. *)
Definition no_goals_game : Game :=
  mkGame (Some "A") (Some "B") None (Some 0)
    None None None None None None None None None.

(** [{'mov_multiplier': 0.5, 'mov_method': 'linear'}]. *)
Definition params_linear : Params :=
  mkParams None None None (Some 0.5) (Some "linear") None None None None.

(** A model whose store already holds the two teams. *)
Definition two_team_model : EloModel :=
  {| params := no_params;
     ratings := [("A", 1500); ("B", 1500)];
     rating_history := [] |}.

(** ** Notions used in the further statements *)

(** The store is a dict: no key occurs twice. *)
Definition unique_keys (self : EloModel) : Prop :=
  NoDup (PyDict.keys (ratings self)).

(** The rating that lines 50-54 of [initialize_ratings] give to the team at
    index [i]. *)
Definition tier_rating (initial : R) (divisions : option (list string))
    (i : nat) : R :=
  match divisions with
  | Some ds =>
      match nth_error ds i with
      | Some div => get (PyDict.lookup (division_ratings initial) div) initial
      | None => initial
      end
  | None => initial
  end.

(** The writes of the loop of [initialize_ratings], from index [i] on. *)
Fixpoint tiered (initial : R) (divisions : option (list string)) (i : nat)
    (teams : list string) : list (string * R) :=
  match teams with
  | [] => []
  | team :: teams' =>
      (team, tier_rating initial divisions i)
        :: tiered initial divisions (S i) teams'
  end.

(** A sequence of [d[k] = v] statements. *)
Fixpoint set_all (d : PyDict.t R) (ws : list (string * R)) : PyDict.t R :=
  match ws with
  | [] => d
  | w :: ws' => set_all (PyDict.setitem d (fst w) (snd w)) ws'
  end.

(** The value the last write to [k] in [ws] leaves, if [ws] writes [k]. *)
Fixpoint last_write (ws : list (string * R)) (k : string) : option R :=
  match ws with
  | [] => None
  | w :: ws' =>
      match last_write ws' k with
      | Some v => Some v
      | None => if String.eqb k (fst w) then Some (snd w) else None
      end
  end.

(** A record with the four mandatory keys. *)
Definition complete_game (game : Game) : Prop :=
  home_team game <> None /\ away_team game <> None /\
  home_goals game <> None /\ away_goals game <> None.

(** A record with the keys the predictor reads with [game[...]]. *)
Definition names_teams (game : Game) : Prop :=
  home_team game <> None /\ away_team game <> None.

(** A record with the four mandatory keys, between two different teams of
    the list [teams]. *)
Definition played_among (teams : list string) (game : Game) : Prop :=
  exists (h a : string) (hg ag : R),
    home_team game = Some h /\ away_team game = Some a /\
    home_goals game = Some hg /\ away_goals game = Some ag /\
    h <> a /\ In h teams /\ In a teams.

(** The entries of a ranking that are rated exactly [r]. *)
Definition rated (r : R) (xs : list (string * R)) : list (string * R) :=
  filter (fun x => Reqb (snd x) r) xs.

(** [self] with every stored rating raised by [c]. *)
Definition shift_ratings (c : R) (self : EloModel) : EloModel :=
  {| params := params self;
     ratings := map (fun kv => (fst kv, snd kv + c)) (ratings self);
     rating_history := rating_history self |}.

(** A record whose outcome column says the home side won in overtime. *)
Definition overtime_game : Game :=
  mkGame (Some "A") (Some "B") (Some 3) (Some 2)
    None None None None None None None (Some (PyStr "OTW")) None.

(** * Properties *)

(** ** Expected score *)

Lemma Rpower10_pos (x : R) : 0 < Rpower 10 x.
Proof. unfold Rpower. apply exp_pos. Qed.

Lemma calculate_expected_score_pos (a b : R) : 0 < calculate_expected_score a b.
Proof.
  unfold calculate_expected_score.
  pose proof (Rpower10_pos ((b - a) / 400)) as Hp.
  apply Rdiv_lt_0_compat; lra.
Qed.

Lemma calculate_expected_score_sym (a b : R) :
  calculate_expected_score a b + calculate_expected_score b a = 1.
Proof.
  unfold calculate_expected_score.
  replace ((a - b) / 400) with (- ((b - a) / 400)) by lra.
  rewrite Rpower_Ropp.
  pose proof (Rpower10_pos ((b - a) / 400)) as Hp.
  set (t := Rpower 10 ((b - a) / 400)) in *.
  assert (0 < / t) by (apply Rinv_0_lt_compat; exact Hp).
  field. split; lra.
Qed.

(** C6: over the reals the expected scores of the two sides add up to 1, and
    an expected score lies strictly between 0 and 1. *)
Theorem expected_score_symmetric_and_bounded (a b : R) :
  calculate_expected_score a b + calculate_expected_score b a = 1 /\
  0 < calculate_expected_score a b < 1.
Proof.
  pose proof (calculate_expected_score_sym a b) as Hs.
  pose proof (calculate_expected_score_pos a b) as Ha.
  pose proof (calculate_expected_score_pos b a) as Hb.
  repeat split; lra.
Qed.

(** ** Margin-of-victory multiplier *)

Lemma Reqb_true (x y : R) : x = y -> Reqb x y = true.
Proof. intros ->. unfold Reqb. destruct (Req_dec_T y y); congruence. Qed.

Lemma Reqb_false (x y : R) : x <> y -> Reqb x y = false.
Proof. intro H. unfold Reqb. destruct (Req_dec_T x y); congruence. Qed.

Lemma ln_abs_succ_nonneg (d : R) : 0 <= ln (Rabs d + 1).
Proof.
  pose proof (Rabs_pos d) as Hd.
  destruct (Req_dec_T (Rabs d) 0) as [Hz | Hnz].
  - rewrite Hz, Rplus_0_l, ln_1. lra.
  - rewrite <- ln_1. left. apply ln_increasing; lra.
Qed.

(** Any method other than ["linear"] selects the logarithmic curve. *)
Lemma calculate_mov_multiplier_not_linear (self : EloModel) (d : R) :
  get (mov_multiplier (params self)) 0 <> 0 ->
  get (mov_method (params self)) "logarithmic" <> "linear" ->
  calculate_mov_multiplier self d =
  1 + ln (Rabs d + 1) * get (mov_multiplier (params self)) 0.
Proof.
  intros Hw Hm. unfold calculate_mov_multiplier.
  rewrite (Reqb_false _ _ Hw).
  apply String.eqb_neq in Hm. rewrite Hm. reflexivity.
Qed.

(** C5: with weight 0 the multiplier is 1 whatever the goal differential;
    otherwise it is [1 + |d| * weight] in linear mode and
    [1 + ln(|d| + 1) * weight] in logarithmic mode, which is also the mode
    when none is configured; for a non-negative weight it is at least 1. *)
Theorem calculate_mov_multiplier_spec (self : EloModel) (d : R) :
  let weight := get (mov_multiplier (params self)) 0 in
  (weight = 0 -> calculate_mov_multiplier self d = 1) /\
  (weight <> 0 -> mov_method (params self) = Some "linear" ->
   calculate_mov_multiplier self d = 1 + Rabs d * weight) /\
  (weight <> 0 ->
   mov_method (params self) = Some "logarithmic" \/
   mov_method (params self) = None ->
   calculate_mov_multiplier self d = 1 + ln (Rabs d + 1) * weight) /\
  (0 <= weight -> 1 <= calculate_mov_multiplier self d).
Proof.
  intro weight. subst weight.
  repeat match goal with |- _ /\ _ => split end.
  - intro Hw. unfold calculate_mov_multiplier.
    rewrite (Reqb_true _ _ Hw). lra.
  - intros Hw Hm. unfold calculate_mov_multiplier.
    rewrite (Reqb_false _ _ Hw), Hm. reflexivity.
  - intros Hw Hm. apply calculate_mov_multiplier_not_linear; [exact Hw |].
    destruct Hm as [Hm | Hm]; rewrite Hm; discriminate.
  - intro Hw. unfold calculate_mov_multiplier.
    pose proof (Rabs_pos d) as Hd.
    pose proof (ln_abs_succ_nonneg d) as Hl.
    destruct (Reqb _ 0); [lra |].
    destruct (String.eqb _ "linear"); nra.
Qed.

(** ** Outcome scorer *)

(** C7: the win codes ["RW"], ["W"] and the number 1 score 1; ["OTW"]
    scores the configured overtime value (0.75 when absent); ["OTL"] scores
    1 minus that value; every other value scores 0; hence ["OTW"] and
    ["OTL"] add up to 1 under every configuration. *)
Theorem get_actual_score_spec (self : EloModel) :
  let ot := get (ot_win_multiplier (params self)) 0.75 in
  get_actual_score self (PyStr "RW") = 1 /\
  get_actual_score self (PyStr "W") = 1 /\
  get_actual_score self (PyNum 1) = 1 /\
  get_actual_score self (PyBool true) = 1 /\
  get_actual_score self (PyStr "OTW") = ot /\
  get_actual_score self (PyStr "OTL") = 1 - ot /\
  (forall v : pyval,
     v <> PyStr "RW" -> v <> PyStr "W" -> v <> PyNum 1 -> v <> PyBool true ->
     v <> PyStr "OTW" -> v <> PyStr "OTL" ->
     get_actual_score self v = 0) /\
  get_actual_score self (PyStr "OTW") + get_actual_score self (PyStr "OTL") = 1.
Proof.
  intro ot. subst ot.
  assert (H11 : Reqb 1 1 = true) by (apply Reqb_true; reflexivity).
  unfold Reqb in H11.
  repeat match goal with |- _ /\ _ => split end.
  - unfold get_actual_score, py_in. simpl. lra.
  - unfold get_actual_score, py_in. simpl. lra.
  - unfold get_actual_score, py_in. simpl. rewrite H11. simpl. lra.
  - unfold get_actual_score, py_in. simpl. rewrite H11. simpl. lra.
  - unfold get_actual_score, py_in. simpl. reflexivity.
  - unfold get_actual_score, py_in. simpl. reflexivity.
  - intros v Hrw Hw H1 Ht Hotw Hotl.
    unfold get_actual_score, py_in.
    destruct v as [s | x | b]; simpl.
    + destruct (String.eqb_spec s "RW") as [-> | _]; [congruence |].
      destruct (String.eqb_spec s "W") as [-> | _]; [congruence |].
      destruct (String.eqb_spec s "OTW") as [-> | _]; [congruence |].
      destruct (String.eqb_spec s "OTL") as [-> | _]; [congruence |].
      simpl. lra.
    + destruct (Req_dec_T x 1) as [-> | _]; [congruence |]. simpl. lra.
    + destruct b; [congruence |]. unfold bool_num.
      destruct (Req_dec_T 0 1) as [H01 | _]; [lra |]. simpl. lra.
  - unfold get_actual_score, py_in. simpl. lra.
Qed.

(** ** Winner prediction *)

Lemma Rgtb_true (x y : R) : x > y -> Rgtb x y = true.
Proof. intro H. unfold Rgtb. destruct (Rgt_dec x y); [reflexivity | contradiction]. Qed.

Lemma Rgtb_false (x y : R) : x <= y -> Rgtb x y = false.
Proof. intro H. unfold Rgtb. destruct (Rgt_dec x y); [lra | reflexivity]. Qed.

Lemma Rleb_true (x y : R) : x <= y -> Rleb x y = true.
Proof. intro H. unfold Rleb. destruct (Rle_dec x y); [reflexivity | contradiction]. Qed.

Lemma Rleb_false (x y : R) : y < x -> Rleb x y = false.
Proof. intro H. unfold Rleb. destruct (Rle_dec x y); [lra | reflexivity]. Qed.

(** C9: on a record that names both teams, [predict_winner] returns the
    home team with the home win probability when that exceeds 0.5, and
    otherwise the away team with the complement; the returned probability is
    at least 0.5 either way. *)
Theorem predict_winner_spec (self : EloModel) (game : Game) (h a : string) :
  home_team game = Some h ->
  away_team game = Some a ->
  let home_win_prob := home_expected_predict self h a game in
  exists (team : string) (prob : R),
    predict_winner self game = Ok (team, prob) /\
    0.5 <= prob /\
    ((home_win_prob > 0.5 /\ team = h /\ prob = home_win_prob) \/
     (home_win_prob <= 0.5 /\ team = a /\ prob = 1 - home_win_prob)).
Proof.
  intros Hh Ha p. subst p.
  unfold predict_winner. rewrite Hh, Ha. simpl.
  destruct (Rgt_dec (home_expected_predict self h a game) 0.5) as [Hgt | Hle].
  - rewrite (Rgtb_true _ _ Hgt).
    exists h, (home_expected_predict self h a game).
    split; [reflexivity |]. split; [lra |]. left. auto.
  - assert (Hle' : home_expected_predict self h a game <= 0.5) by lra.
    rewrite (Rgtb_false _ _ Hle').
    exists a, (1 - home_expected_predict self h a game).
    split; [reflexivity |]. split; [lra |]. right. auto.
Qed.

(** ** Rankings *)

Lemma insert_desc_perm (x : string * R) (l : list (string * R)) :
  Permutation (insert_desc x l) (x :: l).
Proof.
  induction l as [| y l IH]; simpl.
  - apply Permutation_refl.
  - destruct (Rleb (snd y) (snd x)).
    + apply Permutation_refl.
    + eapply perm_trans; [apply perm_skip, IH | apply perm_swap].
Qed.

Lemma sorted_desc_perm (l : list (string * R)) : Permutation (sorted_desc l) l.
Proof.
  induction l as [| x l IH]; simpl.
  - apply perm_nil.
  - eapply perm_trans; [apply insert_desc_perm | apply perm_skip, IH].
Qed.

Lemma insert_desc_hd (x y : string * R) (l : list (string * R)) :
  rating_ge y x -> HdRel rating_ge y l -> HdRel rating_ge y (insert_desc x l).
Proof.
  intros Hyx Hl. destruct l as [| z l]; simpl.
  - constructor. exact Hyx.
  - destruct (Rleb (snd z) (snd x)); constructor.
    + exact Hyx.
    + inversion Hl; assumption.
Qed.

Lemma insert_desc_sorted (x : string * R) (l : list (string * R)) :
  Sorted rating_ge l -> Sorted rating_ge (insert_desc x l).
Proof.
  induction l as [| y l IH]; intro Hs; simpl.
  - repeat constructor.
  - inversion Hs as [| ? ? Hs' Hhd]; subst.
    unfold Rleb. destruct (Rle_dec (snd y) (snd x)) as [Hle | Hgt].
    + constructor; [exact Hs |]. constructor. exact Hle.
    + constructor; [apply IH, Hs' |].
      apply insert_desc_hd; [| exact Hhd].
      unfold rating_ge. lra.
Qed.

Lemma sorted_desc_sorted (l : list (string * R)) : Sorted rating_ge (sorted_desc l).
Proof.
  induction l as [| x l IH]; simpl.
  - constructor.
  - apply insert_desc_sorted, IH.
Qed.

Lemma rating_ge_trans (x y z : string * R) :
  rating_ge x y -> rating_ge y z -> rating_ge x z.
Proof. unfold rating_ge. lra. Qed.

(** C10: without [top_n] the ranking lists every entry of the store by
    decreasing rating; a positive [top_n] keeps its first [top_n] entries;
    [top_n = 0] is falsy and returns the whole ranking. *)
Theorem get_rankings_spec (self : EloModel) :
  let full := get_rankings self None in
  Permutation full (PyDict.items (ratings self)) /\
  StronglySorted rating_ge full /\
  (forall n : Z, (0 < n)%Z ->
     get_rankings self (Some n) = firstn (Z.to_nat n) full) /\
  get_rankings self (Some 0%Z) = full.
Proof.
  intro full. subst full. unfold get_rankings.
  repeat match goal with |- _ /\ _ => split end.
  - apply sorted_desc_perm.
  - apply Sorted_StronglySorted; [| apply sorted_desc_sorted].
    intros x y z. apply rating_ge_trans.
  - intros n Hn.
    assert (Hz : Z.eqb n 0 = false) by (apply Z.eqb_neq; lia).
    rewrite Hz. simpl. unfold slice_to.
    assert (Hp : Z.leb 0 n = true) by (apply Z.leb_le; lia).
    rewrite Hp. reflexivity.
  - reflexivity.
Qed.

(** ** The rating store *)

Lemma lookup_setitem {V : Type} (d : PyDict.t V) (k k' : string) (v : V) :
  PyDict.lookup (PyDict.setitem d k v) k' =
  if String.eqb k' k then Some v else PyDict.lookup d k'.
Proof.
  induction d as [| [k0 v0] d IH]; simpl.
  - destruct (String.eqb k' k); reflexivity.
  - destruct (String.eqb_spec k k0) as [-> | Hk]; simpl.
    + destruct (String.eqb k' k0); reflexivity.
    + rewrite IH.
      destruct (String.eqb_spec k' k0) as [-> | Hk'].
      * apply String.eqb_neq in Hk. rewrite String.eqb_sym, Hk. reflexivity.
      * reflexivity.
Qed.

Lemma lookup_in_keys {V : Type} (d : PyDict.t V) (k : string) :
  In k (PyDict.keys d) -> exists v, PyDict.lookup d k = Some v.
Proof.
  induction d as [| [k0 v0] d IH]; simpl; [contradiction |].
  intros [-> | Hin].
  - rewrite String.eqb_refl. eauto.
  - destruct (String.eqb k k0); eauto.
Qed.

Lemma keys_setitem_bound {V : Type} (d : PyDict.t V) (k : string) (v : V) :
  In k (PyDict.keys d) -> PyDict.keys (PyDict.setitem d k v) = PyDict.keys d.
Proof.
  induction d as [| [k0 v0] d IH]; simpl; [contradiction |].
  intro Hin. destruct (String.eqb_spec k k0) as [-> | Hk]; simpl.
  - reflexivity.
  - f_equal. apply IH. destruct Hin as [Heq | Hin]; [congruence | exact Hin].
Qed.

Lemma Rsum_setitem_bound (d : PyDict.t R) (k : string) (old v : R) :
  PyDict.lookup d k = Some old ->
  Rsum (map snd (PyDict.setitem d k v)) = Rsum (map snd d) - old + v.
Proof.
  induction d as [| [k0 v0] d IH]; simpl; [discriminate |].
  destruct (String.eqb k k0); simpl.
  - intros [= ->]. lra.
  - intro Hl. rewrite (IH Hl). lra.
Qed.

Lemma Rsum_setitem_fresh (d : PyDict.t R) (k : string) (v : R) :
  PyDict.lookup d k = None ->
  Rsum (map snd (PyDict.setitem d k v)) = Rsum (map snd d) + v.
Proof.
  induction d as [| [k0 v0] d IH]; simpl.
  - intros _. lra.
  - destruct (String.eqb k k0); simpl; [discriminate |].
    intro Hl. rewrite (IH Hl). lra.
Qed.

(** ** The update engine *)

Lemma home_actual_of_total (self : EloModel) (game : Game) (hg ag : R) :
  home_goals game = Some hg -> away_goals game = Some ag ->
  exists actual, home_actual_of self game = Ok actual.
Proof.
  intros Hhg Hag. unfold home_actual_of.
  destruct (home_outcome game); [eauto |].
  destruct (home_win game); [eauto |].
  rewrite Hhg, Hag. simpl. eauto.
Qed.

(** What one successful call of [update_ratings] leaves in [self]. *)
Lemma update_ratings_ok (self : EloModel) (game : Game)
    (h a : string) (hg ag actual : R) :
  home_team game = Some h -> away_team game = Some a ->
  home_goals game = Some hg -> away_goals game = Some ag ->
  home_actual_of self game = Ok actual ->
  let delta :=
    effective_k self hg ag * (actual - home_expected_update self h a game) in
  let new_home := rating_of self h + delta in
  let new_away := rating_of self a - delta in
  update_ratings game self =
  ({| params := params self;
      ratings := PyDict.setitem (PyDict.setitem (ratings self) h new_home) a new_away;
      rating_history :=
        rating_history self ++
        [ {| h_home_team := h; h_away_team := a;
             h_home_rating := if String.eqb h a then new_away else new_home;
             h_away_rating := new_away |} ] |}, Ok tt).
Proof.
  intros Hh Ha Hhg Hag Hact delta new_home new_away.
  unfold update_ratings, bind, lift, gets, ratings_setitem, ratings_getitem,
    history_append.
  rewrite Hh, Ha, Hhg, Hag, Hact. cbn [getitem ratings params rating_history].
  rewrite !lookup_setitem, !String.eqb_refl.
  assert (Hna : rating_of self a +
      get (k_factor (params self)) 32 * calculate_mov_multiplier self (hg - ag) *
      (1 - actual - (1 - home_expected_update self h a game)) = new_away).
  { subst new_away delta. unfold effective_k. lra. }
  unfold rating_of in Hna. rewrite Hna.
  destruct (String.eqb h a); cbn [getitem]; reflexivity.
Qed.


(** Which [KeyError] a record without a mandatory key runs into. *)
Lemma update_ratings_missing_key (game : Game) :
  lacks_mandatory_field game ->
  exists key : string,
    In key ["home_team"; "away_team"; "home_goals"; "away_goals"] /\
    forall self, update_ratings game self = (self, Raise (KeyError key)).
Proof.
  intro Hlack. unfold update_ratings, bind, lift, gets.
  destruct (home_team game) as [h |] eqn:Hh; cycle 1.
  { exists "home_team". split; [simpl; auto | reflexivity]. }
  destruct (away_team game) as [a |] eqn:Ha; cycle 1.
  { exists "away_team". split; [simpl; auto 6 | reflexivity]. }
  cbn [getitem]. unfold home_actual_of.
  destruct (home_goals game) as [hg |] eqn:Hhg; cycle 1.
  { exists "home_goals". split; [simpl; auto 6 |]. intro self.
    destruct (home_outcome game); [reflexivity |].
    destruct (home_win game); reflexivity. }
  destruct (away_goals game) as [ag |] eqn:Hag; cycle 1.
  { exists "away_goals". split; [simpl; auto 6 |]. intro self.
    destruct (home_outcome game); [reflexivity |].
    destruct (home_win game); reflexivity. }
  destruct Hlack as [H | [H | [H | H]]]; congruence.
Qed.



(** ** Evaluating the expected score *)

Lemma ln_10_pos : 0 < ln 10.
Proof. rewrite <- ln_1. apply ln_increasing; lra. Qed.

Lemma Rpower10_0 : Rpower 10 0 = 1.
Proof. apply Rpower_O. lra. Qed.

Lemma Rpower10_lt_1 (x : R) : x < 0 -> Rpower 10 x < 1.
Proof.
  intro Hx. unfold Rpower. rewrite <- exp_0. apply exp_increasing.
  pose proof ln_10_pos. nra.
Qed.

Lemma Rpower10_gt_1 (x : R) : 0 < x -> 1 < Rpower 10 x.
Proof.
  intro Hx. unfold Rpower. rewrite <- exp_0. apply exp_increasing.
  pose proof ln_10_pos. nra.
Qed.

Lemma calculate_expected_score_equal (x y : R) :
  x = y -> calculate_expected_score x y = 1 / 2.
Proof.
  intros ->. unfold calculate_expected_score.
  replace ((y - y) / 400) with 0 by lra. rewrite Rpower10_0. lra.
Qed.

Lemma calculate_expected_score_favourite (x y : R) :
  y < x -> 1 / 2 < calculate_expected_score x y.
Proof.
  intro Hlt. unfold calculate_expected_score.
  pose proof (Rpower10_pos ((y - x) / 400)) as Hpos.
  assert (Hlt1 : Rpower 10 ((y - x) / 400) < 1) by (apply Rpower10_lt_1; lra).
  set (t := Rpower 10 ((y - x) / 400)) in *.
  apply (Rmult_lt_reg_r (2 * (1 + t))); [lra |].
  field_simplify; lra.
Qed.

Lemma calculate_expected_score_underdog (x y : R) :
  x < y -> calculate_expected_score x y < 1 / 2.
Proof.
  intro Hlt.
  pose proof (calculate_expected_score_favourite y x Hlt).
  pose proof (calculate_expected_score_sym x y). lra.
Qed.

(** One update between two different teams: equal and opposite changes, and
    an unchanged store sum when both teams already have a rating. *)
Lemma zero_sum_step (self : EloModel) (game : Game)
    (h a : string) (hg ag : R) :
  home_team game = Some h -> away_team game = Some a ->
  home_goals game = Some hg -> away_goals game = Some ag ->
  h <> a ->
  exists (self' : EloModel) (actual : R),
    home_actual_of self game = Ok actual /\
    update_ratings game self = (self', Ok tt) /\
    let delta :=
      effective_k self hg ag * (actual - home_expected_update self h a game) in
    rating_of self' h = rating_of self h + delta /\
    rating_of self' a = rating_of self a - delta /\
    (In h (PyDict.keys (ratings self)) -> In a (PyDict.keys (ratings self)) ->
     ratings_sum self' = ratings_sum self /\
     PyDict.keys (ratings self') = PyDict.keys (ratings self)).
Proof.
  intros Hh Ha Hhg Hag Hne.
  destruct (home_actual_of_total self game hg ag Hhg Hag) as [actual Hact].
  pose proof (update_ratings_ok self game h a hg ag actual Hh Ha Hhg Hag Hact)
    as Hupd.
  cbv zeta in Hupd.
  eexists. exists actual. split; [exact Hact |]. split; [exact Hupd |].
  cbv zeta.
  set (delta := effective_k self hg ag *
                (actual - home_expected_update self h a game)) in *.
  assert (Hha : String.eqb h a = false) by (apply String.eqb_neq; exact Hne).
  assert (Hah : String.eqb a h = false)
    by (apply String.eqb_neq; congruence).
  split; [| split].
  - unfold rating_of at 1. cbn [ratings].
    rewrite !lookup_setitem, Hha, String.eqb_refl. reflexivity.
  - unfold rating_of at 1. cbn [ratings].
    rewrite !lookup_setitem, String.eqb_refl. reflexivity.
  - intros Hinh Hina.
    destruct (lookup_in_keys _ _ Hinh) as [vh Hvh].
    destruct (lookup_in_keys _ _ Hina) as [va Hva].
    split.
    + unfold ratings_sum, PyDict.items. cbn [ratings].
      rewrite (Rsum_setitem_bound _ a va).
      2:{ rewrite lookup_setitem, Hah. exact Hva. }
      rewrite (Rsum_setitem_bound _ h vh _ Hvh).
      unfold rating_of. rewrite Hvh, Hva. simpl. lra.
    + cbn [ratings]. rewrite keys_setitem_bound.
      * apply keys_setitem_bound. exact Hinh.
      * rewrite keys_setitem_bound; assumption.
Qed.

Lemma seated_match_keys (d d' : PyDict.t R) (game : Game) :
  PyDict.keys d' = PyDict.keys d -> seated_match d game -> seated_match d' game.
Proof.
  intros Hk (h & a & hg & ag & Hh & Ha & Hhg & Hag & Hne & Hinh & Hina).
  exists h, a, hg, ag. rewrite Hk. auto 10.
Qed.

(** A sequence of updates, each between two different teams of the store. *)
Lemma fit_loop_zero_sum (games : list Game) (self : EloModel) :
  Forall (seated_match (ratings self)) games ->
  exists self' : EloModel,
    fit_loop games self = (self', Ok tt) /\
    ratings_sum self' = ratings_sum self /\
    PyDict.keys (ratings self') = PyDict.keys (ratings self).
Proof.
  revert self. induction games as [| game games IH]; intros self Hall.
  - exists self. simpl. unfold ret. auto.
  - inversion Hall as [| ? ? Hgame Hrest]; subst.
    destruct Hgame as (h & a & hg & ag & Hh & Ha & Hhg & Hag & Hne & Hinh & Hina).
    destruct (zero_sum_step self game h a hg ag Hh Ha Hhg Hag Hne)
      as (self1 & actual & _ & Hupd & _ & _ & Hsum).
    destruct (Hsum Hinh Hina) as [Hsum1 Hkeys1].
    destruct (IH self1) as (self' & Hloop & Hsum' & Hkeys').
    { eapply Forall_impl; [| exact Hrest].
      intros g Hg. apply (seated_match_keys (ratings self)); assumption. }
    exists self'. simpl. unfold bind. rewrite Hupd.
    split; [exact Hloop |]. split; congruence.
Qed.


(** ** The update engine on sample records *)

Ltac model_unfold :=
  unfold effective_k, rating_of, home_actual_of, home_expected_update,
    home_expected_predict, adjust_for_context, calculate_mov_multiplier;
  cbn [get getitem rbind negb andb app
       PyDict.lookup PyDict.setitem PyDict.empty PyDict.items
       String.eqb Ascii.eqb Bool.eqb
       init no_params params_1400 plain_game travel_game injury_game
       params ratings rating_history
       k_factor home_advantage initial_rating mov_multiplier mov_method
       season_carryover ot_win_multiplier rest_advantage_per_day b2b_penalty
       home_team away_team home_goals away_goals home_rest away_rest
       away_travel_dist travel_distance home_injuries away_injuries injuries
       home_outcome home_win].

Ltac model_compare :=
  rewrite ?(Rleb_false 2 1), ?(Rgtb_false 0 0), ?(Rgtb_true 1000 0),
    ?(Rgtb_true 3 0), ?(Reqb_true 0 0) by lra;
  cbn [negb andb].

Lemma plain_game_expected_fresh :
  home_expected_update (init no_params) "A" "B" (plain_game "A" "B" 3 0) = 1 / 2.
Proof.
  model_unfold. model_compare.
  apply calculate_expected_score_equal. lra.
Qed.

Lemma plain_game_update_fresh :
  update_ratings (plain_game "A" "B" 3 0) (init no_params) =
  ({| params := no_params;
      ratings := [("A", 1516); ("B", 1484)];
      rating_history := [mkHistory "A" "B" 1516 1484] |}, Ok tt).
Proof.
  pose proof (update_ratings_ok (init no_params) (plain_game "A" "B" 3 0)
                "A" "B" 3 0 1.0 eq_refl eq_refl eq_refl eq_refl) as Hok.
  cbv zeta in Hok. rewrite Hok; clear Hok.
  2:{ model_unfold. model_compare. reflexivity. }
  rewrite plain_game_expected_fresh.
  model_unfold. model_compare.
  replace (1500 + 32 * 1.0 * (1.0 - 1 / 2)) with 1516 by lra.
  replace (1500 - 32 * 1.0 * (1.0 - 1 / 2)) with 1484 by lra.
  reflexivity.
Qed.

(** The store sum does change when an update first references a team: from
    an empty store, one match leaves the two default ratings in it. *)
Lemma ratings_sum_not_invariant :
  exists self' : EloModel,
    update_ratings (plain_game "A" "B" 3 0) (init no_params) = (self', Ok tt) /\
    ratings self' = [("A", 1516); ("B", 1484)] /\
    ratings_sum (init no_params) = 0 /\
    ratings_sum self' = 3000 /\
    ratings_sum self' <> ratings_sum (init no_params).
Proof.
  eexists. split; [apply plain_game_update_fresh |].
  unfold ratings_sum. cbn [ratings init PyDict.items PyDict.empty map snd Rsum fold_right].
  repeat split; lra.
Qed.

(** C3, amended: in an update between two different teams the home rating
    gains [K * (home_actual - home_expected)] and the away rating loses the
    same amount, counted from the ratings both paths read (1500 for a team
    not yet in the store); when both teams are already in the store the sum
    of all stored ratings is unchanged, and so it is across any sequence of
    such updates. *)
Theorem update_ratings_zero_sum :
  (forall (self : EloModel) (game : Game) (h a : string) (hg ag : R),
     home_team game = Some h -> away_team game = Some a ->
     home_goals game = Some hg -> away_goals game = Some ag ->
     h <> a ->
     exists (self' : EloModel) (actual : R),
       home_actual_of self game = Ok actual /\
       update_ratings game self = (self', Ok tt) /\
       let delta :=
         effective_k self hg ag * (actual - home_expected_update self h a game) in
       rating_of self' h = rating_of self h + delta /\
       rating_of self' a = rating_of self a - delta /\
       (In h (PyDict.keys (ratings self)) ->
        In a (PyDict.keys (ratings self)) ->
        ratings_sum self' = ratings_sum self)) /\
  (forall (games : list Game) (self : EloModel),
     Forall (seated_match (ratings self)) games ->
     exists self' : EloModel,
       fit_loop games self = (self', Ok tt) /\
       ratings_sum self' = ratings_sum self).
Proof.
  split.
  - intros self game h a hg ag Hh Ha Hhg Hag Hne.
    destruct (zero_sum_step self game h a hg ag Hh Ha Hhg Hag Hne)
      as (self' & actual & Hact & Hupd & Hdh & Hda & Hsum).
    exists self', actual. repeat (split; [assumption |]).
    intros Hinh Hina. apply Hsum; assumption.
  - intros games self Hall.
    destruct (fit_loop_zero_sum games self Hall) as (self' & Hloop & Hsum & _).
    exists self'. auto.
Qed.

(** ** Default rating of a team that is not in the store *)

(** Both paths read a rating with [self.ratings.get(team, 1500)]. *)
Lemma rating_of_unseen (self : EloModel) (team : string) :
  PyDict.lookup (ratings self) team = None -> rating_of self team = 1500.
Proof. intro H. unfold rating_of. rewrite H. reflexivity. Qed.

(** On both paths a team that is not in the store counts exactly as if it
    were stored at 1500. *)
Lemma unseen_team_reads_as_1500 (self : EloModel) (t h a : string)
    (game : Game) :
  PyDict.lookup (ratings self) t = None ->
  let self' :=
    {| params := params self;
       ratings := PyDict.setitem (ratings self) t 1500;
       rating_history := rating_history self |} in
  home_expected_update self' h a game = home_expected_update self h a game /\
  home_expected_predict self' h a game = home_expected_predict self h a game.
Proof.
  intros Hnone self'. subst self'.
  unfold home_expected_update, home_expected_predict. cbn [ratings params].
  rewrite !lookup_setitem.
  destruct (String.eqb_spec h t) as [-> | _];
    destruct (String.eqb_spec a t) as [-> | _];
    rewrite ?Hnone; split; reflexivity.
Qed.

Lemma initialize_ratings_no_divisions_1400 :
  initialize_ratings ["A"] None (init params_1400) =
  ({| params := params_1400; ratings := [("A", 1400)]; rating_history := [] |},
   Ok tt).
Proof. reflexivity. Qed.

(** C1, at [initial_rating = 1400]: after initialisation team ["A"] holds
    1400, while a team ["B"] that is not in the store enters the prediction
    path and the update path at 1500, not at the configured 1400.  The
    prediction favours ["B"], and the update starts ["B"] from 1500. *)
Theorem unseen_team_default_ignores_initial_rating :
  let game := plain_game "A" "B" 3 0 in
  let p := calculate_expected_score 1400 1500 in
  exists self1 : EloModel,
    initialize_ratings ["A"] None (init params_1400) = (self1, Ok tt) /\
    initial_rating (params self1) = Some 1400 /\
    PyDict.lookup (ratings self1) "A" = Some 1400 /\
    PyDict.lookup (ratings self1) "B" = None /\
    home_expected_predict self1 "A" "B" game = p /\
    home_expected_update self1 "A" "B" game = p /\
    p < 1 / 2 /\
    predict_winner self1 game = Ok ("B", 1 - p) /\
    exists self2 : EloModel,
      update_ratings game self1 = (self2, Ok tt) /\
      PyDict.lookup (ratings self2) "B" = Some (1500 - 32 * (1 - p)).
Proof.
  intros game p. subst game p.
  eexists. split; [apply initialize_ratings_no_divisions_1400 |].
  set (self1 := {| params := params_1400; ratings := [("A", 1400)];
                   rating_history := [] |}).
  assert (Hp : home_expected_predict self1 "A" "B" (plain_game "A" "B" 3 0) =
               calculate_expected_score 1400 1500).
  { subst self1. model_unfold. model_compare. f_equal; lra. }
  assert (Hu : home_expected_update self1 "A" "B" (plain_game "A" "B" 3 0) =
               calculate_expected_score 1400 1500).
  { subst self1. model_unfold. model_compare. f_equal; lra. }
  assert (Hlt : calculate_expected_score 1400 1500 < 1 / 2)
    by (apply calculate_expected_score_underdog; lra).
  repeat match goal with |- _ /\ _ => split end;
    try reflexivity; try assumption.
  - unfold predict_winner.
    cbn [plain_game home_team away_team getitem rbind].
    change (mkGame (Some "A") (Some "B") (Some 3) (Some 0)
              None None None None None None None None None)
      with (plain_game "A" "B" 3 0).
    rewrite Hp, Rgtb_false by lra. reflexivity.
  - pose proof (update_ratings_ok self1 (plain_game "A" "B" 3 0)
                  "A" "B" 3 0 1.0 eq_refl eq_refl eq_refl eq_refl) as Hok.
    cbv zeta in Hok. eexists. split.
    + apply Hok. model_unfold. model_compare. reflexivity.
    + rewrite Hu. subst self1. model_unfold. model_compare.
      f_equal. lra.
Qed.

(** ** Context defaults of the predictor *)

(** Where no fallback column is in play the predictor and the update engine
    compute the same expected score. *)
Lemma home_expected_predict_agrees (self : EloModel) (h a : string)
    (game : Game) :
  away_travel_dist game <> None \/ travel_distance game = None ->
  home_injuries game <> None \/ injuries game = None ->
  away_injuries game <> None \/ injuries game = None ->
  home_expected_predict self h a game = home_expected_update self h a game.
Proof.
  intros Ht Hhi Hai. unfold home_expected_predict, home_expected_update.
  assert (Et : get (away_travel_dist game) (get (travel_distance game) 0) =
               get (away_travel_dist game) 0).
  { destruct (away_travel_dist game); [reflexivity |].
    destruct Ht as [Ht | Ht]; [congruence | rewrite Ht; reflexivity]. }
  assert (Eh : get (home_injuries game) (get (injuries game) 0) =
               get (home_injuries game) 0).
  { destruct (home_injuries game); [reflexivity |].
    destruct Hhi as [Hhi | Hhi]; [congruence | rewrite Hhi; reflexivity]. }
  assert (Ea : get (away_injuries game) (get (injuries game) 0) =
               get (away_injuries game) 0).
  { destruct (away_injuries game); [reflexivity |].
    destruct Hai as [Hai | Hai]; [congruence | rewrite Hai; reflexivity]. }
  rewrite Et, Eh, Ea. reflexivity.
Qed.

(** The replaced [predict_goals] does use the expected score of the update
    engine. *)
Lemma predict_goals_shadowed_uses_update (self : EloModel) (game : Game)
    (h a : string) :
  home_team game = Some h -> away_team game = Some a ->
  predict_goals_shadowed self game =
  Ok (goals_of_prob (home_expected_update self h a game)).
Proof.
  intros Hh Ha. unfold predict_goals_shadowed. rewrite Hh, Ha. reflexivity.
Qed.

(** C2, on two records: with only [travel_distance] given (1000 miles) the
    update engine expects [calculate_expected_score 1500 1485] for the home
    side while the predictor computes 1/2, ignores the travel, and names the
    away side; with only the shared [injuries] column given for the home
    side the update engine expects [calculate_expected_score 1475 1500]
    while the predictor again computes 1/2. *)
Theorem predictor_drops_context_fallbacks :
  let self := init no_params in
  home_expected_update self "A" "B" travel_game =
    calculate_expected_score 1500 1485 /\
  home_expected_predict self "A" "B" travel_game = 1 / 2 /\
  home_expected_predict self "A" "B" travel_game <>
    home_expected_update self "A" "B" travel_game /\
  predict_winner self travel_game = Ok ("B", 1 / 2) /\
  predict_goals self travel_game = Ok (3, 3) /\
  predict_goals_shadowed self travel_game =
    Ok (goals_of_prob (calculate_expected_score 1500 1485)) /\
  home_expected_update self "A" "B" injury_game =
    calculate_expected_score 1475 1500 /\
  home_expected_predict self "A" "B" injury_game = 1 / 2 /\
  home_expected_predict self "A" "B" injury_game <>
    home_expected_update self "A" "B" injury_game.
Proof.
  intro self. subst self.
  assert (Hut : home_expected_update (init no_params) "A" "B" travel_game =
                calculate_expected_score 1500 1485).
  { model_unfold. model_compare. f_equal; lra. }
  assert (Hpt : home_expected_predict (init no_params) "A" "B" travel_game =
                1 / 2).
  { model_unfold. model_compare. apply calculate_expected_score_equal. lra. }
  assert (Hui : home_expected_update (init no_params) "A" "B" injury_game =
                calculate_expected_score 1475 1500).
  { model_unfold. model_compare. f_equal; lra. }
  assert (Hpi : home_expected_predict (init no_params) "A" "B" injury_game =
                1 / 2).
  { model_unfold. model_compare. apply calculate_expected_score_equal. lra. }
  pose proof (calculate_expected_score_favourite 1500 1485) as Hfav.
  pose proof (calculate_expected_score_underdog 1475 1500) as Hund.
  repeat match goal with |- _ /\ _ => split end.
  - exact Hut.
  - exact Hpt.
  - rewrite Hut, Hpt. lra.
  - unfold predict_winner.
    change (home_team travel_game) with (Some "A").
    change (away_team travel_game) with (Some "B").
    cbn [getitem rbind]. rewrite Hpt, Rgtb_false by lra.
    f_equal. f_equal. lra.
  - unfold predict_goals.
    change (home_team travel_game) with (Some "A").
    change (away_team travel_game) with (Some "B").
    cbn [getitem rbind]. rewrite Hpt. unfold goals_of_prob.
    f_equal. f_equal; lra.
  - rewrite (predict_goals_shadowed_uses_update _ _ "A" "B") by reflexivity.
    rewrite Hut. reflexivity.
  - exact Hui.
  - exact Hpi.
  - rewrite Hui, Hpi. lra.
Qed.

(** ** Evaluation *)

Lemma len_set_repeat (c : R) (n : nat) : len_set (repeat c (S n)) = 1%nat.
Proof.
  unfold len_set. induction n as [| n IH].
  - reflexivity.
  - change (repeat c (S (S n))) with (c :: repeat c (S n)).
    cbn [nodup].
    destruct (in_dec Req_dec_T c (repeat c (S n))) as [_ | Hnin].
    + exact IH.
    + exfalso. apply Hnin. left. reflexivity.
Qed.

Lemma evaluate_loop_constant (self : EloModel) (games : list Game) (c : R) :
  Forall (fun g => home_team g <> None /\ away_team g <> None /\
                   home_goals g = Some c) games ->
  exists predictions : list R,
    evaluate_loop self games = Ok (predictions, repeat c (List.length games)) /\
    List.length predictions = List.length games.
Proof.
  induction 1 as [| game games (Hh & Ha & Hg) _ (predictions & Hloop & Hlen)].
  - exists []. split; reflexivity.
  - destruct (home_team game) as [h |] eqn:Eh; [| congruence].
    destruct (away_team game) as [a |] eqn:Ea; [| congruence].
    exists (fst (goals_of_prob (home_expected_predict self h a game))
              :: predictions).
    split.
    + cbn [evaluate_loop]. unfold predict_goals.
      rewrite Eh, Ea, Hg, Hloop. reflexivity.
    + cbn [List.length]. rewrite Hlen. reflexivity.
Qed.

Lemma check_targets_ok (y_true y_pred : list R) :
  List.length y_true = List.length y_pred -> y_true <> [] ->
  sklearn.check_targets y_true y_pred = Ok tt.
Proof.
  intros Hlen Hne. unfold sklearn.check_targets.
  rewrite Hlen, Nat.eqb_refl. cbn [negb].
  destruct y_pred; [| reflexivity].
  destruct y_true; [congruence | discriminate].
Qed.

(** C8: on a non-empty sequence of complete records that all carry the same
    observed home goals, [evaluate] returns normally; [rmse] and [mae] are
    the values of the two error metrics on the collected lists, and [r2] is
    0. *)
Theorem evaluate_zero_variance (self : EloModel) (games : list Game) (c : R) :
  games <> [] ->
  Forall (fun g => home_team g <> None /\ away_team g <> None /\
                   home_goals g = Some c) games ->
  exists (predictions : list R) (rmse_v mae_v : R),
    evaluate_loop self games = Ok (predictions, repeat c (List.length games)) /\
    sklearn.mean_squared_error (repeat c (List.length games)) predictions false
      = Ok rmse_v /\
    sklearn.mean_absolute_error (repeat c (List.length games)) predictions
      = Ok mae_v /\
    evaluate self games = Ok {| rmse := rmse_v; mae := mae_v; r2 := 0 |}.
Proof.
  intros Hne Hall.
  destruct (evaluate_loop_constant self games c Hall) as (predictions & Hloop & Hlen).
  set (actuals := repeat c (List.length games)) in *.
  assert (Hcheck : sklearn.check_targets actuals predictions = Ok tt).
  { apply check_targets_ok.
    - subst actuals. rewrite repeat_length. symmetry. exact Hlen.
    - subst actuals. destruct games; [congruence | discriminate]. }
  assert (Hset : Nat.ltb 1 (len_set actuals) = false).
  { subst actuals. destruct games as [| g games]; [congruence |].
    cbn [List.length]. rewrite len_set_repeat. reflexivity. }
  exists predictions. do 2 eexists. split; [exact Hloop |].
  unfold sklearn.mean_squared_error, sklearn.mean_absolute_error.
  rewrite Hcheck. cbn [rbind].
  split; [reflexivity |]. split; [reflexivity |].
  unfold evaluate. rewrite Hloop. cbn [rbind fst snd].
  unfold sklearn.mean_squared_error, sklearn.mean_absolute_error.
  rewrite Hcheck, Hset. cbn [rbind].
  f_equal. f_equal. lra.
Qed.

(** ** The statements at sample inputs *)

Lemma update_ratings_zero_sum_witness :
  (exists self' : EloModel,
     update_ratings (plain_game "A" "B" 3 0) two_team_model = (self', Ok tt) /\
     ratings_sum self' = ratings_sum two_team_model) /\
  (exists self' : EloModel,
     fit_loop [plain_game "A" "B" 3 0; plain_game "B" "A" 1 2] two_team_model
       = (self', Ok tt) /\
     ratings_sum self' = ratings_sum two_team_model).
Proof.
  destruct update_ratings_zero_sum as [Hstep Hseq]. split.
  - destruct (Hstep two_team_model (plain_game "A" "B" 3 0) "A" "B" 3 0)
      as (self' & actual & _ & Hupd & _ & _ & Hsum);
      [reflexivity | reflexivity | reflexivity | reflexivity | discriminate |].
    exists self'. split; [exact Hupd |].
    apply Hsum; simpl; auto.
  - apply Hseq.
    repeat constructor.
    + exists "A", "B", 3, 0.
      repeat split; try reflexivity; [discriminate | simpl; auto | simpl; auto].
    + exists "B", "A", 1, 2.
      repeat split; try reflexivity; [discriminate | simpl; auto | simpl; auto].
Defined.


Lemma calculate_mov_multiplier_spec_witness :
  calculate_mov_multiplier (init params_linear) 3 = 1 + Rabs 3 * 0.5 /\
  1 <= calculate_mov_multiplier (init params_linear) 3.
Proof.
  destruct (calculate_mov_multiplier_spec (init params_linear) 3)
    as (_ & Hlin & _ & Hge).
  split.
  - apply Hlin; [simpl; lra | reflexivity].
  - apply Hge. simpl. lra.
Defined.

Lemma get_actual_score_spec_witness :
  get_actual_score (init no_params) (PyStr "L") = 0.
Proof.
  destruct (get_actual_score_spec (init no_params))
    as (_ & _ & _ & _ & _ & _ & Hother & _).
  apply Hother; discriminate.
Defined.

Lemma evaluate_zero_variance_witness :
  exists m : Metrics,
    evaluate (init no_params) [plain_game "A" "B" 2 1; plain_game "B" "A" 2 0]
      = Ok m /\
    r2 m = 0.
Proof.
  destruct (evaluate_zero_variance (init no_params)
              [plain_game "A" "B" 2 1; plain_game "B" "A" 2 0] 2)
    as (predictions & rmse_v & mae_v & _ & _ & _ & Heval).
  - discriminate.
  - repeat constructor; discriminate.
  - eexists. split; [exact Heval | reflexivity].
Defined.

Lemma predict_winner_spec_witness :
  exists (team : string) (prob : R),
    predict_winner (init no_params) (plain_game "A" "B" 3 0) = Ok (team, prob) /\
    0.5 <= prob.
Proof.
  destruct (predict_winner_spec (init no_params) (plain_game "A" "B" 3 0)
              "A" "B" eq_refl eq_refl)
    as (team & prob & Hret & Hge & _).
  exists team, prob. split; assumption.
Defined.

Lemma get_rankings_spec_witness :
  get_rankings two_team_model (Some 1%Z) =
  firstn 1 (get_rankings two_team_model None).
Proof.
  destruct (get_rankings_spec two_team_model) as (_ & _ & Htop & _).
  apply (Htop 1%Z). lia.
Defined.

(** * Further properties of the code *)

(** ** Dictionaries *)

Lemma lookup_absent {V : Type} (d : PyDict.t V) (k : string) :
  ~ In k (PyDict.keys d) -> PyDict.lookup d k = None.
Proof.
  induction d as [| [k0 v0] d IH]; simpl; [reflexivity |].
  intro Hnin. destruct (String.eqb_spec k k0) as [-> | _].
  - exfalso. apply Hnin. left. reflexivity.
  - apply IH. intro Hin. apply Hnin. right. exact Hin.
Qed.

Lemma lookup_present {V : Type} (d : PyDict.t V) (k : string) (v : V) :
  PyDict.lookup d k = Some v -> In k (PyDict.keys d).
Proof.
  induction d as [| [k0 v0] d IH]; simpl; [discriminate |].
  destruct (String.eqb_spec k k0) as [-> | _]; [auto |].
  intro H. right. apply IH, H.
Qed.

Lemma keys_setitem {V : Type} (d : PyDict.t V) (k : string) (v : V) :
  PyDict.keys (PyDict.setitem d k v) =
  if in_dec string_dec k (PyDict.keys d) then PyDict.keys d
  else (PyDict.keys d ++ [k])%list.
Proof.
  induction d as [| [k0 v0] d IH]; simpl; [reflexivity |].
  destruct (String.eqb_spec k k0) as [-> | Hne]; simpl.
  - destruct (string_dec k0 k0); [reflexivity | congruence].
  - rewrite IH. destruct (string_dec k0 k) as [E | Hne']; [congruence |].
    destruct (in_dec string_dec k (PyDict.keys d)); reflexivity.
Qed.

Lemma keys_setitem_in {V : Type} (d : PyDict.t V) (k k' : string) (v : V) :
  In k' (PyDict.keys (PyDict.setitem d k v)) <->
  k' = k \/ In k' (PyDict.keys d).
Proof.
  rewrite keys_setitem.
  destruct (in_dec string_dec k (PyDict.keys d)) as [Hin | Hnin].
  - split; [auto |]. intros [-> | H]; assumption.
  - rewrite in_app_iff. simpl. split.
    + intros [H | [H | []]]; auto.
    + intros [-> | H]; auto.
Qed.

Lemma NoDup_keys_setitem {V : Type} (d : PyDict.t V) (k : string) (v : V) :
  NoDup (PyDict.keys d) -> NoDup (PyDict.keys (PyDict.setitem d k v)).
Proof.
  intro Hnd. rewrite keys_setitem.
  destruct (in_dec string_dec k (PyDict.keys d)) as [Hin | Hnin];
    [exact Hnd |].
  apply NoDup_app; [exact Hnd | repeat constructor; simpl; tauto |].
  intros x Hx [<- | []]. exact (Hnin Hx).
Qed.

(** A dict is determined by the order of its keys and by its bindings. *)
Lemma dict_ext {V : Type} (d d' : PyDict.t V) :
  NoDup (PyDict.keys d) ->
  PyDict.keys d = PyDict.keys d' ->
  (forall k, PyDict.lookup d k = PyDict.lookup d' k) ->
  d = d'.
Proof.
  revert d'. induction d as [| [k v] d IH]; intros [| [k' v'] d'] Hnd Hk Hl;
    simpl in Hk; try discriminate; [reflexivity |].
  injection Hk as <- Hk.
  inversion Hnd as [| ? ? Hnin Hnd']; subst.
  pose proof (Hl k) as Hlk. simpl in Hlk. rewrite String.eqb_refl in Hlk.
  injection Hlk as <-.
  f_equal. apply IH; [exact Hnd' | exact Hk |].
  intro k0. destruct (String.eqb_spec k0 k) as [-> | Hne].
  - rewrite !lookup_absent; [reflexivity | rewrite <- Hk; exact Hnin | exact Hnin].
  - pose proof (Hl k0) as Hl0. simpl in Hl0.
    apply String.eqb_neq in Hne. rewrite Hne in Hl0. exact Hl0.
Qed.

Lemma lookup_set_all (ws : list (string * R)) (d : PyDict.t R) (k : string) :
  PyDict.lookup (set_all d ws) k =
  match last_write ws k with
  | Some v => Some v
  | None => PyDict.lookup d k
  end.
Proof.
  revert d. induction ws as [| [k' v'] ws IH]; intro d; simpl; [reflexivity |].
  rewrite IH. destruct (last_write ws k); [reflexivity |].
  rewrite lookup_setitem. destruct (String.eqb k k'); reflexivity.
Qed.

Lemma NoDup_keys_set_all (ws : list (string * R)) (d : PyDict.t R) :
  NoDup (PyDict.keys d) -> NoDup (PyDict.keys (set_all d ws)).
Proof.
  revert d. induction ws as [| w ws IH]; intros d Hnd; simpl; [exact Hnd |].
  apply IH, NoDup_keys_setitem, Hnd.
Qed.

Lemma keys_set_all_in (ws : list (string * R)) (d : PyDict.t R) (k : string) :
  In k (PyDict.keys (set_all d ws)) <->
  In k (map fst ws) \/ In k (PyDict.keys d).
Proof.
  revert d. induction ws as [| w ws IH]; intro d; simpl; [tauto |].
  rewrite IH, keys_setitem_in. intuition congruence.
Qed.

Lemma keys_set_all_bound (ws : list (string * R)) (d : PyDict.t R) :
  (forall k, In k (map fst ws) -> In k (PyDict.keys d)) ->
  PyDict.keys (set_all d ws) = PyDict.keys d.
Proof.
  revert d. induction ws as [| w ws IH]; intros d Hall; simpl; [reflexivity |].
  assert (Hw : In (fst w) (PyDict.keys d)) by (apply Hall; left; reflexivity).
  rewrite IH.
  - apply keys_setitem_bound, Hw.
  - intros k Hk. apply keys_setitem_in. right. apply Hall. right. exact Hk.
Qed.

Lemma set_all_idempotent (ws : list (string * R)) (d : PyDict.t R) :
  NoDup (PyDict.keys d) -> set_all (set_all d ws) ws = set_all d ws.
Proof.
  intro Hnd. apply dict_ext.
  - apply NoDup_keys_set_all, NoDup_keys_set_all, Hnd.
  - apply keys_set_all_bound. intros k Hk. apply keys_set_all_in. auto.
  - intro k. rewrite (lookup_set_all ws (set_all d ws)).
    destruct (last_write ws k) as [v |] eqn:Hlw; [| reflexivity].
    rewrite lookup_set_all, Hlw. reflexivity.
Qed.

(** ** Initialisation of the store *)

Lemma initialize_from_run (initial : R) (divisions : option (list string))
    (teams : list string) (i : nat) (self : EloModel) :
  initialize_from initial divisions i teams self =
  ({| params := params self;
      ratings := set_all (ratings self) (tiered initial divisions i teams);
      rating_history := rating_history self |}, Ok tt).
Proof.
  revert i self. induction teams as [| team teams IH]; intros i self.
  - destruct self. reflexivity.
  - cbn [initialize_from tiered set_all fst snd]. unfold bind.
    assert (Hstep :
      match divisions with
      | Some ds =>
          match nth_error ds i with
          | Some div =>
              ratings_setitem team
                (get (PyDict.lookup (division_ratings initial) div) initial)
          | None => ratings_setitem team initial
          end
      | None => ratings_setitem team initial
      end self
      = ratings_setitem team (tier_rating initial divisions i) self).
    { unfold tier_rating. destruct divisions as [ds |]; [| reflexivity].
      destruct (nth_error ds i); reflexivity. }
    rewrite Hstep. unfold ratings_setitem at 1. rewrite IH. reflexivity.
Qed.

Lemma initialize_ratings_run (teams : list string)
    (divisions : option (list string)) (self : EloModel) :
  initialize_ratings teams divisions self =
  ({| params := params self;
      ratings :=
        set_all (ratings self)
          (tiered (get (initial_rating (params self)) 1500) divisions 0 teams);
      rating_history := rating_history self |}, Ok tt).
Proof.
  unfold initialize_ratings, bind, gets. apply initialize_from_run.
Qed.

Lemma last_write_tiered_absent (initial : R) (divisions : option (list string))
    (teams : list string) (i : nat) (t : string) :
  ~ In t teams -> last_write (tiered initial divisions i teams) t = None.
Proof.
  revert i. induction teams as [| team teams IH]; intros i Hnin; simpl;
    [reflexivity |].
  rewrite IH by (intro H; apply Hnin; right; exact H).
  destruct (String.eqb_spec t team) as [-> | _]; [| reflexivity].
  exfalso. apply Hnin. left. reflexivity.
Qed.

Lemma last_write_tiered_nth (initial : R) (divisions : option (list string))
    (teams : list string) (i j : nat) (t : string) :
  NoDup teams -> nth_error teams j = Some t ->
  last_write (tiered initial divisions i teams) t =
  Some (tier_rating initial divisions (i + j)).
Proof.
  revert i j. induction teams as [| team teams IH]; intros i j Hnd Hnth.
  - destruct j; discriminate.
  - inversion Hnd as [| ? ? Hnin Hnd']; subst. destruct j as [| j]; simpl in *.
    + injection Hnth as ->.
      rewrite last_write_tiered_absent by exact Hnin.
      rewrite String.eqb_refl, Nat.add_0_r. reflexivity.
    + rewrite (IH (S i) j Hnd' Hnth).
      replace (S i + j)%nat with (i + S j)%nat by lia. reflexivity.
Qed.

Lemma last_write_tiered_baseline (initial : R) (teams : list string) (i : nat)
    (t : string) :
  In t teams -> last_write (tiered initial None i teams) t = Some initial.
Proof.
  revert i. induction teams as [| team teams IH]; intros i Hin; simpl;
    [contradiction |].
  destruct (in_dec string_dec t teams) as [Hin' | Hnin].
  - rewrite (IH (S i) Hin'). reflexivity.
  - rewrite last_write_tiered_absent by exact Hnin.
    destruct Hin as [-> | Hin]; [| contradiction].
    rewrite String.eqb_refl. reflexivity.
Qed.

(** X1: [initialize_ratings(teams)] never raises; it rates every listed team
    at the configured [initial_rating] (1500 when absent), whatever the team
    held before, and leaves the other ratings, the parameters and the
    history as they were. *)
Theorem initialize_ratings_baseline (self : EloModel) (teams : list string) :
  let initial := get (initial_rating (params self)) 1500 in
  exists self' : EloModel,
    initialize_ratings teams None self = (self', Ok tt) /\
    params self' = params self /\
    rating_history self' = rating_history self /\
    (forall t, In t teams ->
       PyDict.lookup (ratings self') t = Some initial) /\
    (forall t, ~ In t teams ->
       PyDict.lookup (ratings self') t = PyDict.lookup (ratings self) t).
Proof.
  intro initial. eexists. split; [apply initialize_ratings_run |].
  cbn [params ratings rating_history].
  repeat match goal with |- _ /\ _ => split end; try reflexivity.
  - intros t Hin. rewrite lookup_set_all.
    rewrite last_write_tiered_baseline by exact Hin. reflexivity.
  - intros t Hnin. rewrite lookup_set_all.
    rewrite last_write_tiered_absent by exact Hnin. reflexivity.
Qed.

(** X2: with a list of divisions and pairwise different teams, the team at
    index [i] is rated by the division at the same index: ["D1"] gives
    [initial + 100], ["D2"] gives [initial], ["D3"] gives [initial - 100],
    any other tag gives [initial], and so does a team beyond the end of the
    division list. *)
Theorem initialize_ratings_tiers (self : EloModel) (teams ds : list string)
    (i : nat) (t : string) :
  NoDup teams ->
  nth_error teams i = Some t ->
  let initial := get (initial_rating (params self)) 1500 in
  exists self' : EloModel,
    initialize_ratings teams (Some ds) self = (self', Ok tt) /\
    (nth_error ds i = Some "D1" ->
     PyDict.lookup (ratings self') t = Some (initial + 100)) /\
    (nth_error ds i = Some "D2" ->
     PyDict.lookup (ratings self') t = Some initial) /\
    (nth_error ds i = Some "D3" ->
     PyDict.lookup (ratings self') t = Some (initial - 100)) /\
    (forall div, nth_error ds i = Some div ->
       div <> "D1" -> div <> "D2" -> div <> "D3" ->
       PyDict.lookup (ratings self') t = Some initial) /\
    (nth_error ds i = None ->
     PyDict.lookup (ratings self') t = Some initial).
Proof.
  intros Hnd Hnth initial. eexists. split; [apply initialize_ratings_run |].
  cbn [ratings]. rewrite lookup_set_all.
  rewrite (last_write_tiered_nth _ _ _ 0 i t Hnd Hnth). cbn [Nat.add].
  unfold tier_rating. fold initial.
  repeat match goal with |- _ /\ _ => split end.
  - intros ->. reflexivity.
  - intros ->. reflexivity.
  - intros ->. reflexivity.
  - intros div -> H1 H2 H3. unfold division_ratings. cbn [PyDict.lookup].
    apply String.eqb_neq in H1, H2, H3. rewrite H1, H2, H3. reflexivity.
  - intros ->. reflexivity.
Qed.

(** X3: initialising twice with the same arguments gives the store of
    initialising once. *)
Theorem initialize_ratings_idempotent (self self1 : EloModel)
    (teams : list string) (divisions : option (list string)) :
  unique_keys self ->
  initialize_ratings teams divisions self = (self1, Ok tt) ->
  initialize_ratings teams divisions self1 = (self1, Ok tt).
Proof.
  intros Hnd Hrun. rewrite initialize_ratings_run in Hrun.
  injection Hrun as <-. rewrite initialize_ratings_run.
  cbn [params ratings rating_history].
  rewrite set_all_idempotent by exact Hnd. reflexivity.
Qed.

(** ** One update *)

(** [update_ratings] either raises [KeyError] and leaves [self] alone, or
    writes the two ratings and appends one record. *)
Lemma update_ratings_cases (game : Game) (self : EloModel) :
  (lacks_mandatory_field game /\
   exists key : string, update_ratings game self = (self, Raise (KeyError key)))
  \/
  (exists (h a : string) (hg ag new_home new_away : R),
     home_team game = Some h /\ away_team game = Some a /\
     home_goals game = Some hg /\ away_goals game = Some ag /\
     update_ratings game self =
     ({| params := params self;
         ratings :=
           PyDict.setitem (PyDict.setitem (ratings self) h new_home) a new_away;
         rating_history :=
           rating_history self ++
           [ {| h_home_team := h; h_away_team := a;
                h_home_rating := if String.eqb h a then new_away else new_home;
                h_away_rating := new_away |} ] |}, Ok tt)).
Proof.
  destruct (home_team game) as [h |] eqn:Hh; cycle 1.
  { left. assert (Hl : lacks_mandatory_field game) by (left; exact Hh).
    split; [exact Hl |].
    destruct (update_ratings_missing_key game Hl) as (key & _ & Hr). eauto. }
  destruct (away_team game) as [a |] eqn:Ha; cycle 1.
  { left. assert (Hl : lacks_mandatory_field game) by (right; left; exact Ha).
    split; [exact Hl |].
    destruct (update_ratings_missing_key game Hl) as (key & _ & Hr). eauto. }
  destruct (home_goals game) as [hg |] eqn:Hhg; cycle 1.
  { left. assert (Hl : lacks_mandatory_field game)
      by (right; right; left; exact Hhg).
    split; [exact Hl |].
    destruct (update_ratings_missing_key game Hl) as (key & _ & Hr). eauto. }
  destruct (away_goals game) as [ag |] eqn:Hag; cycle 1.
  { left. assert (Hl : lacks_mandatory_field game)
      by (right; right; right; exact Hag).
    split; [exact Hl |].
    destruct (update_ratings_missing_key game Hl) as (key & _ & Hr). eauto. }
  right.
  destruct (home_actual_of_total self game hg ag Hhg Hag) as [actual Hact].
  pose proof (update_ratings_ok self game h a hg ag actual Hh Ha Hhg Hag Hact)
    as Hok.
  cbv zeta in Hok. exists h, a, hg, ag. do 2 eexists.
  repeat split; try reflexivity. exact Hok.
Qed.

Lemma complete_game_fields (game : Game) :
  complete_game game ->
  exists (h a : string) (hg ag : R),
    home_team game = Some h /\ away_team game = Some a /\
    home_goals game = Some hg /\ away_goals game = Some ag.
Proof.
  intros (Hh & Ha & Hhg & Hag).
  destruct (home_team game) as [h |]; [| congruence].
  destruct (away_team game) as [a |]; [| congruence].
  destruct (home_goals game) as [hg |]; [| congruence].
  destruct (away_goals game) as [ag |]; [| congruence].
  exists h, a, hg, ag. auto.
Qed.

Lemma update_ratings_appends (self : EloModel) (game : Game) (h a : string) :
  home_team game = Some h -> away_team game = Some a ->
  home_goals game <> None -> away_goals game <> None ->
  exists (self' : EloModel) (rec : HistoryRecord),
    update_ratings game self = (self', Ok tt) /\
    params self' = params self /\
    rating_history self' = (rating_history self ++ [rec])%list /\
    h_home_team rec = h /\ h_away_team rec = a.
Proof.
  intros Hh Ha Hhg Hag.
  destruct (update_ratings_cases game self)
    as [[Hl _] | (h' & a' & hg & ag & nh & na & Hh' & Ha' & _ & _ & Hupd)].
  { destruct Hl as [H | [H | [H | H]]]; congruence. }
  assert (h' = h) by congruence. assert (a' = a) by congruence. subst h' a'.
  do 2 eexists. split; [exact Hupd |]. cbn. auto.
Qed.

(** X4: what a successful update writes.  The parameters are kept, exactly
    one history record is appended, the record names the two teams and
    carries the ratings the store holds for them after the update, and no
    other team's rating is touched. *)
Theorem update_ratings_effect (self : EloModel) (game : Game) (h a : string) :
  home_team game = Some h -> away_team game = Some a ->
  home_goals game <> None -> away_goals game <> None ->
  exists (self' : EloModel) (rec : HistoryRecord),
    update_ratings game self = (self', Ok tt) /\
    params self' = params self /\
    rating_history self' = (rating_history self ++ [rec])%list /\
    h_home_team rec = h /\ h_away_team rec = a /\
    PyDict.lookup (ratings self') h = Some (h_home_rating rec) /\
    PyDict.lookup (ratings self') a = Some (h_away_rating rec) /\
    (forall t, t <> h -> t <> a ->
       PyDict.lookup (ratings self') t = PyDict.lookup (ratings self) t).
Proof.
  intros Hh Ha Hhg Hag.
  destruct (update_ratings_cases game self)
    as [[Hl _] | (h' & a' & hg & ag & nh & na & Hh' & Ha' & _ & _ & Hupd)].
  { destruct Hl as [H | [H | [H | H]]]; congruence. }
  assert (h' = h) by congruence. assert (a' = a) by congruence. subst h' a'.
  do 2 eexists. split; [exact Hupd |].
  cbn [params ratings rating_history h_home_team h_away_team h_home_rating
       h_away_rating].
  repeat match goal with |- _ /\ _ => split end; try reflexivity.
  - rewrite !lookup_setitem, String.eqb_refl.
    destruct (String.eqb h a); reflexivity.
  - rewrite lookup_setitem, String.eqb_refl. reflexivity.
  - intros t Hth Hta. rewrite !lookup_setitem.
    apply String.eqb_neq in Hth, Hta. rewrite Hth, Hta. reflexivity.
Qed.

(** ** The training loop *)

Lemma fit_loop_complete (games : list Game) (self : EloModel) :
  Forall complete_game games ->
  exists (self' : EloModel) (new : list HistoryRecord),
    fit_loop games self = (self', Ok tt) /\
    params self' = params self /\
    rating_history self' = (rating_history self ++ new)%list /\
    map (fun r => (Some (h_home_team r), Some (h_away_team r))) new =
    map (fun g => (home_team g, away_team g)) games.
Proof.
  revert self. induction games as [| game games IH]; intros self Hall.
  - exists self, []. cbn. rewrite app_nil_r. auto.
  - inversion Hall as [| ? ? Hgame Hrest]; subst.
    destruct (complete_game_fields game Hgame)
      as (h & a & hg & ag & Hh & Ha & Hhg & Hag).
    destruct (update_ratings_appends self game h a Hh Ha)
      as (self1 & rec & Hupd & Hp1 & Hh1 & Hrh & Hra);
      [congruence | congruence |].
    destruct (IH self1 Hrest) as (self' & new & Hloop & Hp & Hhist & Hmap).
    exists self', (rec :: new). cbn [fit_loop]. unfold bind. rewrite Hupd.
    split; [exact Hloop |]. split; [congruence |]. split.
    + rewrite Hhist, Hh1, <- app_assoc. reflexivity.
    + cbn [map]. rewrite Hmap, Hrh, Hra, Hh, Ha. reflexivity.
Qed.

(** X5: on records that all carry the four mandatory keys the loop of [fit]
    runs to the end; the history grows by one record per match, in the order
    of the matches and after the records that were already there, and the
    parameters are unchanged. *)
Theorem fit_loop_history (games : list Game) (self : EloModel) :
  Forall complete_game games ->
  exists (self' : EloModel) (new : list HistoryRecord),
    fit_loop games self = (self', Ok tt) /\
    params self' = params self /\
    rating_history self' = (rating_history self ++ new)%list /\
    List.length new = List.length games /\
    map (fun r => (Some (h_home_team r), Some (h_away_team r))) new =
    map (fun g => (home_team g, away_team g)) games.
Proof.
  intro Hall.
  destruct (fit_loop_complete games self Hall)
    as (self' & new & Hloop & Hp & Hhist & Hmap).
  exists self', new. repeat (split; [assumption |]). split; [| exact Hmap].
  apply (f_equal (@List.length _)) in Hmap. rewrite !length_map in Hmap.
  exact Hmap.
Qed.

(** ** Unique keys *)

Lemma update_ratings_unique_keys (game : Game) (self : EloModel) :
  unique_keys self -> unique_keys (fst (update_ratings game self)).
Proof.
  intro Hnd.
  destruct (update_ratings_cases game self)
    as [[_ (key & Hr)] | (h & a & hg & ag & nh & na & _ & _ & _ & _ & Hupd)].
  - rewrite Hr. exact Hnd.
  - rewrite Hupd. unfold unique_keys. cbn [fst ratings].
    apply NoDup_keys_setitem, NoDup_keys_setitem, Hnd.
Qed.

Lemma fit_loop_unique_keys (games : list Game) (self : EloModel) :
  unique_keys self -> unique_keys (fst (fit_loop games self)).
Proof.
  revert self. induction games as [| game games IH]; intros self Hnd.
  - exact Hnd.
  - cbn [fit_loop]. unfold bind.
    pose proof (update_ratings_unique_keys game self Hnd) as H1.
    destruct (update_ratings game self) as [self1 [[] | e]]; cbn [fst] in *.
    + apply IH, H1.
    + exact H1.
Qed.

Lemma initialize_ratings_unique_keys (teams : list string)
    (divisions : option (list string)) (self : EloModel) :
  unique_keys self ->
  unique_keys (fst (initialize_ratings teams divisions self)).
Proof.
  intro Hnd. rewrite initialize_ratings_run. unfold unique_keys.
  cbn [fst ratings]. apply NoDup_keys_set_all, Hnd.
Qed.

(** X6: the store never holds a team twice.  A new model has unique keys,
    and [initialize_ratings], [update_ratings] and [fit] keep them unique,
    whether they return or raise. *)
Theorem unique_keys_invariant :
  (forall p : Params, unique_keys (init p)) /\
  (forall (self : EloModel) (teams : list string)
          (divisions : option (list string)),
     unique_keys self ->
     unique_keys (fst (initialize_ratings teams divisions self))) /\
  (forall (self : EloModel) (game : Game),
     unique_keys self -> unique_keys (fst (update_ratings game self))) /\
  (forall (self : EloModel) (teams : list string)
          (divisions : option (list string)) (games : list Game),
     unique_keys self ->
     unique_keys (fst (fit teams divisions games self))).
Proof.
  repeat match goal with |- _ /\ _ => split end.
  - intro p. constructor.
  - intros self teams divisions Hnd.
    apply initialize_ratings_unique_keys, Hnd.
  - intros self game Hnd. apply update_ratings_unique_keys, Hnd.
  - intros self teams divisions games Hnd. unfold fit, bind.
    pose proof (initialize_ratings_unique_keys teams divisions self Hnd) as H1.
    rewrite initialize_ratings_run in *. cbn [fst] in H1.
    apply fit_loop_unique_keys, H1.
Qed.

(** ** Shape of the expected score *)

Lemma calculate_expected_score_lt_1 (a b : R) : calculate_expected_score a b < 1.
Proof.
  pose proof (calculate_expected_score_sym a b).
  pose proof (calculate_expected_score_pos b a). lra.
Qed.

Lemma Rpower10_increasing (x y : R) : x < y -> Rpower 10 x < Rpower 10 y.
Proof.
  intro Hlt. unfold Rpower. apply exp_increasing.
  pose proof ln_10_pos. nra.
Qed.

Lemma calculate_expected_score_increasing (a a' b : R) :
  a < a' -> calculate_expected_score a b < calculate_expected_score a' b.
Proof.
  intro Hlt. unfold calculate_expected_score.
  assert (Hp : Rpower 10 ((b - a') / 400) < Rpower 10 ((b - a) / 400))
    by (apply Rpower10_increasing; lra).
  pose proof (Rpower10_pos ((b - a') / 400)) as Hpos.
  unfold Rdiv at 1 3. rewrite !Rmult_1_l.
  apply Rinv_lt_contravar; [nra | lra].
Qed.

Lemma calculate_expected_score_shift (a b c : R) :
  calculate_expected_score (a + c) (b + c) = calculate_expected_score a b.
Proof. unfold calculate_expected_score. do 3 f_equal. lra. Qed.

(** X7: the expected score grows with the team's own rating and falls with
    the opponent's; it is 1/2 exactly for equal ratings; it depends on the
    two ratings only through their difference; and a lead of 400 points is
    worth 10/11. *)
Theorem calculate_expected_score_shape :
  (forall a a' b : R,
     a < a' -> calculate_expected_score a b < calculate_expected_score a' b) /\
  (forall a b b' : R,
     b < b' -> calculate_expected_score a b' < calculate_expected_score a b) /\
  (forall a b : R, calculate_expected_score a b = 1 / 2 <-> a = b) /\
  (forall a b c : R,
     calculate_expected_score (a + c) (b + c) = calculate_expected_score a b) /\
  (forall b : R, calculate_expected_score (b + 400) b = 10 / 11).
Proof.
  repeat match goal with |- _ /\ _ => split end.
  - apply calculate_expected_score_increasing.
  - intros a b b' Hlt.
    pose proof (calculate_expected_score_increasing b b' a Hlt).
    pose proof (calculate_expected_score_sym a b).
    pose proof (calculate_expected_score_sym a b'). lra.
  - intros a b. split.
    + intro Heq. destruct (Rtotal_order a b) as [Hlt | [Hab | Hgt]].
      * pose proof (calculate_expected_score_underdog a b Hlt). lra.
      * exact Hab.
      * pose proof (calculate_expected_score_favourite a b Hgt). lra.
    + apply calculate_expected_score_equal.
  - apply calculate_expected_score_shift.
  - intro b. unfold calculate_expected_score.
    replace ((b - (b + 400)) / 400) with (- (1)) by lra.
    rewrite Rpower_Ropp, Rpower_1 by lra. lra.
Qed.

(** ** Context adjustment *)

Lemma adjust_for_context_shift (self : EloModel) (team_elo c : R)
    (is_home : bool) (rest_time travel_dist injuries_v : R) :
  adjust_for_context self (team_elo + c) is_home rest_time travel_dist injuries_v
  = adjust_for_context self team_elo is_home rest_time travel_dist injuries_v + c.
Proof.
  unfold adjust_for_context.
  destruct is_home, (Rleb rest_time 1), (Rgtb travel_dist 0); cbn [negb andb];
    lra.
Qed.

(** X8: what the context can do to a rating.  The adjustment is the raw
    rating plus a correction that does not depend on the rating; the home
    side never pays for travel; and with non-negative parameters, injuries
    and travel distance the away side is never adjusted upwards and the home
    side by at most the home advantage. *)
Theorem adjust_for_context_bounds (self : EloModel) (team_elo : R)
    (rest_time travel_dist injuries_v : R) :
  (forall (c : R) (is_home : bool),
     adjust_for_context self (team_elo + c) is_home rest_time travel_dist
       injuries_v
     = adjust_for_context self team_elo is_home rest_time travel_dist
         injuries_v + c) /\
  (forall travel_dist' : R,
     adjust_for_context self team_elo true rest_time travel_dist' injuries_v
     = adjust_for_context self team_elo true rest_time travel_dist injuries_v) /\
  (0 <= get (b2b_penalty (params self)) 0 -> 0 <= injuries_v ->
   adjust_for_context self team_elo false rest_time travel_dist injuries_v
     <= team_elo /\
   adjust_for_context self team_elo true rest_time travel_dist injuries_v
     <= team_elo + get (home_advantage (params self)) 0).
Proof.
  repeat match goal with |- _ /\ _ => split end.
  - intros c is_home. apply adjust_for_context_shift.
  - intro travel_dist'. reflexivity.
  - intros Hb Hi. unfold adjust_for_context. cbn [negb andb].
    unfold Rleb, Rgtb.
    destruct (Rle_dec rest_time 1), (Rgt_dec travel_dist 0); split; nra.
Qed.

(** ** Ratings enter the predictions through their difference *)

Lemma lookup_shift (c : R) (d : PyDict.t R) (k : string) :
  PyDict.lookup (map (fun kv => (fst kv, snd kv + c)) d) k =
  match PyDict.lookup d k with
  | Some v => Some (v + c)
  | None => None
  end.
Proof.
  induction d as [| [k0 v0] d IH]; simpl; [reflexivity |].
  destruct (String.eqb k k0); [reflexivity | exact IH].
Qed.

Lemma adjust_for_context_params (self self' : EloModel) (team_elo : R)
    (is_home : bool) (rest_time travel_dist injuries_v : R) :
  params self' = params self ->
  adjust_for_context self' team_elo is_home rest_time travel_dist injuries_v
  = adjust_for_context self team_elo is_home rest_time travel_dist injuries_v.
Proof. intro Hp. unfold adjust_for_context. rewrite Hp. reflexivity. Qed.

Lemma home_expected_shift (self : EloModel) (c : R) (h a : string)
    (game : Game) :
  In h (PyDict.keys (ratings self)) -> In a (PyDict.keys (ratings self)) ->
  home_expected_update (shift_ratings c self) h a game
    = home_expected_update self h a game /\
  home_expected_predict (shift_ratings c self) h a game
    = home_expected_predict self h a game.
Proof.
  intros Hh Ha.
  destruct (lookup_in_keys _ _ Hh) as [vh Hvh].
  destruct (lookup_in_keys _ _ Ha) as [va Hva].
  unfold home_expected_update, home_expected_predict.
  change (ratings (shift_ratings c self))
    with (map (fun kv => (fst kv, snd kv + c)) (ratings self)).
  change (params (shift_ratings c self)) with (params self).
  rewrite !lookup_shift, Hvh, Hva. cbn [get].
  rewrite !adjust_for_context_shift.
  rewrite !(adjust_for_context_params self (shift_ratings c self))
    by reflexivity.
  split;
    match goal with
    | |- calculate_expected_score (?A + c + ?r) (?B + c) = _ =>
        replace (A + c + r) with ((A + r) + c) by lra
    end;
    apply calculate_expected_score_shift.
Qed.

(** X9: raising every stored rating by the same amount changes no
    prediction about two teams of the store, and leaves the expected score
    of the update engine for them unchanged as well. *)
Theorem prediction_shift_invariant (self : EloModel) (c : R) (game : Game)
    (h a : string) :
  home_team game = Some h -> away_team game = Some a ->
  In h (PyDict.keys (ratings self)) -> In a (PyDict.keys (ratings self)) ->
  predict_winner (shift_ratings c self) game = predict_winner self game /\
  predict_goals (shift_ratings c self) game = predict_goals self game /\
  home_expected_update (shift_ratings c self) h a game
    = home_expected_update self h a game.
Proof.
  intros Hh Ha Hinh Hina.
  destruct (home_expected_shift self c h a game Hinh Hina) as [Hu Hp].
  unfold predict_winner, predict_goals. rewrite Hh, Ha. cbn [getitem rbind].
  rewrite Hp. auto.
Qed.

(** ** Predicted goals *)

Lemma home_expected_predict_range (self : EloModel) (h a : string)
    (game : Game) :
  0 < home_expected_predict self h a game < 1.
Proof.
  unfold home_expected_predict.
  split; [apply calculate_expected_score_pos | apply calculate_expected_score_lt_1].
Qed.

Lemma home_expected_update_range (self : EloModel) (h a : string)
    (game : Game) :
  0 < home_expected_update self h a game < 1.
Proof.
  unfold home_expected_update.
  split; [apply calculate_expected_score_pos | apply calculate_expected_score_lt_1].
Qed.

(** X10: on a record that names both teams, with or without goals,
    [predict_goals] returns six times the home win probability for the home
    side and the rest of six goals for the away side; both lie strictly
    between 0 and 6; and [predict_winner] names the home team exactly when
    more goals are predicted for it. *)
Theorem predict_goals_shape (self : EloModel) (game : Game) (h a : string) :
  home_team game = Some h -> away_team game = Some a ->
  exists home_pred away_pred : R,
    predict_goals self game = Ok (home_pred, away_pred) /\
    home_pred = 6 * home_expected_predict self h a game /\
    home_pred + away_pred = 6 /\
    0 < home_pred < 6 /\ 0 < away_pred < 6 /\
    (away_pred < home_pred ->
     exists prob, predict_winner self game = Ok (h, prob)) /\
    (home_pred <= away_pred ->
     exists prob, predict_winner self game = Ok (a, prob)).
Proof.
  intros Hh Ha.
  pose proof (home_expected_predict_range self h a game) as Hr.
  unfold predict_goals, predict_winner. rewrite Hh, Ha. cbn [getitem rbind].
  unfold goals_of_prob.
  set (p := home_expected_predict self h a game) in *.
  do 2 eexists. split; [reflexivity |].
  repeat match goal with |- _ /\ _ => split end; try lra.
  - intro Hgt. rewrite Rgtb_true by lra. eauto.
  - intro Hle. rewrite Rgtb_false by lra. eauto.
Qed.

(** ** Errors of the evaluator *)

Lemma evaluate_loop_app_raise (self : EloModel) (before after : list Game)
    (e : exn) :
  Forall (fun g => names_teams g /\ home_goals g <> None) before ->
  evaluate_loop self after = Raise e ->
  evaluate_loop self (before ++ after) = Raise e.
Proof.
  intros Hall Hraise. induction Hall as [| g before [[Hh Ha] Hg] _ IH].
  - exact Hraise.
  - cbn [app evaluate_loop]. unfold predict_goals.
    destruct (home_team g); [| congruence].
    destruct (away_team g); [| congruence].
    destruct (home_goals g); [| congruence].
    cbn [getitem rbind]. rewrite IH. reflexivity.
Qed.

(** X11: [evaluate] stops at the first record that lacks [home_team],
    [away_team] or [home_goals] and raises [KeyError] for the first of these
    keys the record lacks; no metric is reported. *)
Theorem evaluate_missing_key (self : EloModel) (before after : list Game)
    (game : Game) :
  Forall (fun g => names_teams g /\ home_goals g <> None) before ->
  home_team game = None \/ away_team game = None \/ home_goals game = None ->
  exists key : string,
    evaluate self (before ++ game :: after) = Raise (KeyError key) /\
    (home_team game = None -> key = "home_team") /\
    (home_team game <> None -> away_team game = None -> key = "away_team") /\
    (home_team game <> None -> away_team game <> None -> key = "home_goals").
Proof.
  intros Hall Hlack.
  assert (Hone : exists key,
    evaluate_loop self (game :: after) = Raise (KeyError key) /\
    (home_team game = None -> key = "home_team") /\
    (home_team game <> None -> away_team game = None -> key = "away_team") /\
    (home_team game <> None -> away_team game <> None -> key = "home_goals")).
  { cbn [evaluate_loop]. unfold predict_goals.
    destruct (home_team game) as [h |] eqn:Hh.
    - destruct (away_team game) as [a |] eqn:Ha.
      + destruct (home_goals game) as [g |] eqn:Hg.
        * destruct Hlack as [H | [H | H]]; discriminate.
        * exists "home_goals". cbn [getitem rbind].
          repeat split; congruence.
      + exists "away_team". cbn [getitem rbind]. repeat split; congruence.
    - exists "home_team". cbn [getitem rbind]. repeat split; congruence. }
  destruct Hone as (key & Hraise & Hkeys).
  exists key. split; [| exact Hkeys].
  unfold evaluate.
  rewrite (evaluate_loop_app_raise self before (game :: after) _ Hall Hraise).
  reflexivity.
Qed.

(** ** Direction and size of a rating change *)

Lemma calculate_mov_multiplier_ge_1 (self : EloModel) (d : R) :
  0 <= get (mov_multiplier (params self)) 0 ->
  1 <= calculate_mov_multiplier self d.
Proof.
  intro Hw. unfold calculate_mov_multiplier.
  pose proof (Rabs_pos d) as Hd.
  pose proof (ln_abs_succ_nonneg d) as Hl.
  destruct (Reqb _ 0); [lra |].
  destruct (String.eqb _ "linear"); nra.
Qed.

Lemma effective_k_pos (self : EloModel) (hg ag : R) :
  0 < get (k_factor (params self)) 32 ->
  0 <= get (mov_multiplier (params self)) 0 ->
  0 < effective_k self hg ag.
Proof.
  intros Hk Hw. unfold effective_k.
  pose proof (calculate_mov_multiplier_ge_1 self (hg - ag) Hw). nra.
Qed.

(** X12: a match decided by its goals (no outcome column, no win flag)
    between two different teams, under a positive K factor and a
    non-negative MOV weight: if the home side scored more, its rating rises
    and the away rating falls; otherwise, a draw included, the home rating
    falls and the away rating rises. *)
Theorem goal_decided_update_direction (self : EloModel) (game : Game)
    (h a : string) (hg ag : R) :
  home_team game = Some h -> away_team game = Some a ->
  home_goals game = Some hg -> away_goals game = Some ag ->
  home_outcome game = None -> home_win game = None ->
  h <> a ->
  0 < get (k_factor (params self)) 32 ->
  0 <= get (mov_multiplier (params self)) 0 ->
  exists self' : EloModel,
    update_ratings game self = (self', Ok tt) /\
    (hg > ag ->
     rating_of self h < rating_of self' h /\
     rating_of self' a < rating_of self a) /\
    (hg <= ag ->
     rating_of self' h < rating_of self h /\
     rating_of self a < rating_of self' a).
Proof.
  intros Hh Ha Hhg Hag Hout Hwin Hne Hk Hw.
  destruct (zero_sum_step self game h a hg ag Hh Ha Hhg Hag Hne)
    as (self' & actual & Hact & Hupd & Hdh & Hda & _).
  cbv zeta in Hdh, Hda.
  pose proof (effective_k_pos self hg ag Hk Hw) as Hkpos.
  pose proof (home_expected_update_range self h a game) as Hr.
  unfold home_actual_of in Hact. rewrite Hout, Hwin, Hhg, Hag in Hact.
  cbn [getitem rbind] in Hact.
  exists self'. split; [exact Hupd |]. rewrite Hdh, Hda. split.
  - intro Hgt. rewrite Rgtb_true in Hact by exact Hgt.
    injection Hact as <-. split; nra.
  - intro Hle. rewrite Rgtb_false in Hact by exact Hle.
    injection Hact as <-. split; nra.
Qed.

Lemma get_actual_score_range (self : EloModel) (outcome : pyval) :
  0 <= get (ot_win_multiplier (params self)) 0.75 <= 1 ->
  0 <= get_actual_score self outcome <= 1.
Proof.
  intro Hot. unfold get_actual_score.
  destruct (py_in outcome _); [lra |].
  destruct (py_eqb outcome (PyStr "OTW")); [lra |].
  destruct (py_eqb outcome (PyStr "OTL")); lra.
Qed.

Lemma home_actual_of_range (self : EloModel) (game : Game) (actual : R) :
  0 <= get (ot_win_multiplier (params self)) 0.75 <= 1 ->
  home_actual_of self game = Ok actual ->
  0 <= actual <= 1.
Proof.
  intros Hot. unfold home_actual_of.
  destruct (home_outcome game) as [o |].
  - intros [= <-]. apply get_actual_score_range, Hot.
  - destruct (home_win game) as [w |].
    + intros [= <-]. destruct (truthy w); lra.
    + destruct (home_goals game); [| discriminate].
      destruct (away_goals game); [| discriminate].
      cbn [getitem rbind]. intros [= <-]. destruct (Rgtb _ _); lra.
Qed.

(** X13: with an overtime value between 0 and 1, a positive K factor and a
    non-negative MOV weight, one match between two different teams moves
    each of their ratings by less than the effective K, that is
    [k_factor] times the MOV multiplier of the goal differential. *)
Theorem update_ratings_change_bounded (self : EloModel) (game : Game)
    (h a : string) (hg ag : R) :
  home_team game = Some h -> away_team game = Some a ->
  home_goals game = Some hg -> away_goals game = Some ag ->
  h <> a ->
  0 <= get (ot_win_multiplier (params self)) 0.75 <= 1 ->
  0 < get (k_factor (params self)) 32 ->
  0 <= get (mov_multiplier (params self)) 0 ->
  exists self' : EloModel,
    update_ratings game self = (self', Ok tt) /\
    Rabs (rating_of self' h - rating_of self h) < effective_k self hg ag /\
    Rabs (rating_of self' a - rating_of self a) < effective_k self hg ag.
Proof.
  intros Hh Ha Hhg Hag Hne Hot Hk Hw.
  destruct (zero_sum_step self game h a hg ag Hh Ha Hhg Hag Hne)
    as (self' & actual & Hact & Hupd & Hdh & Hda & _).
  cbv zeta in Hdh, Hda.
  pose proof (effective_k_pos self hg ag Hk Hw) as Hkpos.
  pose proof (home_expected_update_range self h a game) as Hr.
  pose proof (home_actual_of_range self game actual Hot Hact) as Hact01.
  exists self'. split; [exact Hupd |]. rewrite Hdh, Hda.
  split; apply Rabs_def1; nra.
Qed.

(** ** Shape of the margin-of-victory multiplier *)

Lemma ln_succ_le (x : R) : 0 <= x -> ln (x + 1) <= x.
Proof.
  intro Hx. destruct (Req_dec_T x 0) as [-> | Hnz].
  - rewrite Rplus_0_l, ln_1. lra.
  - rewrite <- (ln_exp x) at 2. left. apply ln_increasing; [lra |].
    pose proof (exp_ineq1 x Hnz). lra.
Qed.

Lemma ln_succ_monotone (x y : R) : 0 <= x -> x <= y -> ln (x + 1) <= ln (y + 1).
Proof.
  intros Hx [Hlt | ->]; [| lra]. left. apply ln_increasing; lra.
Qed.

(** X14: the multiplier ignores the sign of the goal differential, is 1 for
    a draw, and for a non-negative weight grows with the size of the
    differential; under the same non-negative weight the logarithmic curve
    never exceeds the linear one. *)
Theorem calculate_mov_multiplier_shape :
  (forall (self : EloModel) (d : R),
     calculate_mov_multiplier self (- d) = calculate_mov_multiplier self d) /\
  (forall self : EloModel, calculate_mov_multiplier self 0 = 1) /\
  (forall (self : EloModel) (d d' : R),
     0 <= get (mov_multiplier (params self)) 0 ->
     Rabs d <= Rabs d' ->
     calculate_mov_multiplier self d <= calculate_mov_multiplier self d') /\
  (forall (self_log self_lin : EloModel) (d : R),
     get (mov_multiplier (params self_log)) 0
       = get (mov_multiplier (params self_lin)) 0 ->
     0 <= get (mov_multiplier (params self_lin)) 0 ->
     mov_method (params self_lin) = Some "linear" ->
     get (mov_method (params self_log)) "logarithmic" <> "linear" ->
     calculate_mov_multiplier self_log d <= calculate_mov_multiplier self_lin d).
Proof.
  repeat match goal with |- _ /\ _ => split end.
  - intros self d. unfold calculate_mov_multiplier. rewrite Rabs_Ropp.
    reflexivity.
  - intro self. unfold calculate_mov_multiplier.
    rewrite Rabs_R0, Rplus_0_l, ln_1.
    destruct (Reqb _ 0); [lra |]. destruct (String.eqb _ _); lra.
  - intros self d d' Hw Hd. unfold calculate_mov_multiplier.
    pose proof (Rabs_pos d) as Hd0.
    pose proof (ln_succ_monotone (Rabs d) (Rabs d') Hd0 Hd) as Hln.
    destruct (Reqb _ 0); [lra |]. destruct (String.eqb _ _); nra.
  - intros self_log self_lin d Hsame Hw Hlin Hlog.
    unfold calculate_mov_multiplier. rewrite Hsame, Hlin.
    apply String.eqb_neq in Hlog. rewrite Hlog.
    change (get (Some "linear") "logarithmic") with "linear".
    rewrite String.eqb_refl.
    pose proof (ln_succ_le (Rabs d) (Rabs_pos d)) as Hln.
    destruct (Reqb _ 0); [lra |].
    apply Rplus_le_compat_l, Rmult_le_compat_r; assumption.
Qed.

(** ** Order of the rankings *)

Lemma rated_insert_desc (r : R) (x : string * R) (l : list (string * R)) :
  rated r (insert_desc x l) = rated r (x :: l).
Proof.
  unfold rated. induction l as [| y l IH]; [reflexivity |].
  cbn [insert_desc]. unfold Rleb.
  destruct (Rle_dec (snd y) (snd x)) as [_ | Hgt]; [reflexivity |].
  cbn [filter] in *. rewrite IH. unfold Reqb.
  destruct (Req_dec_T (snd x) r) as [Hx | _]; [| reflexivity].
  destruct (Req_dec_T (snd y) r) as [Hy | _]; [lra | reflexivity].
Qed.

Lemma rated_sorted_desc (r : R) (l : list (string * R)) :
  rated r (sorted_desc l) = rated r l.
Proof.
  induction l as [| x l IH]; [reflexivity |].
  cbn [sorted_desc fold_right]. rewrite rated_insert_desc.
  unfold rated in *. cbn [filter]. fold (sorted_desc l). rewrite IH.
  reflexivity.
Qed.

Lemma StronglySorted_app_dominates (l1 l2 : list (string * R)) :
  StronglySorted rating_ge (l1 ++ l2) ->
  forall x y, In x l1 -> In y l2 -> snd y <= snd x.
Proof.
  induction l1 as [| z l1 IH]; intros Hs x y Hx Hy; [contradiction |].
  cbn [app] in Hs. inversion Hs as [| ? ? Hs' Hall]; subst.
  destruct Hx as [<- | Hx].
  - rewrite Forall_forall in Hall. apply (Hall y).
    apply in_or_app. right. exact Hy.
  - apply (IH Hs' x y Hx Hy).
Qed.

(** X15: in the ranking, teams with equal ratings keep the order in which
    they entered the store.  For a positive [top_n] the result has
    [min(top_n, number of teams)] entries, and every entry left out is rated
    no higher than any entry returned.  A negative [top_n] is truthy too:
    it drops that many entries from the end of the ranking. *)
Theorem get_rankings_order (self : EloModel) :
  let full := get_rankings self None in
  (forall r : R, rated r full = rated r (PyDict.items (ratings self))) /\
  (forall n : Z, (0 < n)%Z ->
     exists rest : list (string * R),
       full = (get_rankings self (Some n) ++ rest)%list /\
       List.length (get_rankings self (Some n))
         = Nat.min (Z.to_nat n) (List.length (ratings self)) /\
       forall x y, In x (get_rankings self (Some n)) -> In y rest ->
                   snd y <= snd x) /\
  (forall n : Z, (n < 0)%Z ->
     get_rankings self (Some n)
       = firstn (List.length full - Z.to_nat (- n)) full).
Proof.
  intro full. subst full. unfold get_rankings, PyDict.items.
  repeat match goal with |- _ /\ _ => split end.
  - intro r. apply rated_sorted_desc.
  - intros n Hn.
    assert (Hz : Z.eqb n 0 = false) by (apply Z.eqb_neq; lia).
    assert (Hp : Z.leb 0 n = true) by (apply Z.leb_le; lia).
    rewrite Hz. cbn [negb]. unfold slice_to. rewrite Hp.
    exists (skipn (Z.to_nat n) (sorted_desc (ratings self))).
    split; [symmetry; apply firstn_skipn |]. split.
    + rewrite length_firstn.
      rewrite (Permutation_length (sorted_desc_perm (ratings self))).
      reflexivity.
    + apply StronglySorted_app_dominates. rewrite firstn_skipn.
      apply Sorted_StronglySorted; [| apply sorted_desc_sorted].
      intros x y z. apply rating_ge_trans.
  - intros n Hn.
    assert (Hz : Z.eqb n 0 = false) by (apply Z.eqb_neq; lia).
    assert (Hp : Z.leb 0 n = false) by (apply Z.leb_gt; lia).
    rewrite Hz. cbn [negb]. unfold slice_to. rewrite Hp. reflexivity.
Qed.

(** ** Training conserves the total rating *)

Lemma setitem_fresh {V : Type} (d : PyDict.t V) (k : string) (v : V) :
  ~ In k (PyDict.keys d) -> PyDict.setitem d k v = (d ++ [(k, v)])%list.
Proof.
  induction d as [| [k0 v0] d IH]; intro Hnin; simpl; [reflexivity |].
  destruct (String.eqb_spec k k0) as [-> | _].
  - exfalso. apply Hnin. left. reflexivity.
  - f_equal. apply IH. intro H. apply Hnin. right. exact H.
Qed.

Lemma set_all_fresh (initial : R) (teams : list string) (i : nat)
    (d : PyDict.t R) :
  NoDup (PyDict.keys d ++ teams) ->
  set_all d (tiered initial None i teams)
  = (d ++ map (fun t => (t, initial)) teams)%list.
Proof.
  revert i d. induction teams as [| t teams IH]; intros i d Hnd.
  - cbn. rewrite app_nil_r. reflexivity.
  - cbn [tiered set_all fst snd map]. unfold tier_rating.
    pose proof (NoDup_remove_2 _ _ _ Hnd) as Hnin.
    rewrite setitem_fresh by (intro H; apply Hnin, in_or_app; left; exact H).
    rewrite IH.
    + rewrite <- app_assoc. reflexivity.
    + unfold PyDict.keys in *. rewrite map_app, <- app_assoc. exact Hnd.
Qed.

Lemma Rsum_constant (initial : R) (teams : list string) :
  Rsum (map snd (map (fun t : string => (t, initial)) teams))
  = INR (List.length teams) * initial.
Proof.
  induction teams as [| t teams IH].
  - cbn. lra.
  - cbn [map snd Rsum fold_right List.length]. fold (Rsum (map snd
      (map (fun t : string => (t, initial)) teams))).
    rewrite IH, S_INR. lra.
Qed.

(** X16: training a new model on matches between different teams of
    [teams], without divisions, runs to the end, leaves exactly the teams of
    [teams] in the store, in that order, and conserves the total rating:
    the ratings still add up to [initial_rating] times the number of
    teams. *)
Theorem fit_conserves_total (p : Params) (teams : list string)
    (games : list Game) :
  NoDup teams ->
  Forall (played_among teams) games ->
  exists self' : EloModel,
    fit teams None games (init p) = (self', Ok tt) /\
    PyDict.keys (ratings self') = teams /\
    ratings_sum self' = INR (List.length teams) * get (initial_rating p) 1500.
Proof.
  intros Hnd Hall. unfold fit, bind. rewrite initialize_ratings_run.
  cbn [init params ratings rating_history PyDict.empty].
  rewrite set_all_fresh by exact Hnd. cbn [app].
  set (initial := get (initial_rating p) 1500).
  set (self1 := {| params := p;
                   ratings := map (fun t => (t, initial)) teams;
                   rating_history := [] |}).
  assert (Hkeys : PyDict.keys (ratings self1) = teams).
  { subst self1. cbn [ratings]. unfold PyDict.keys. rewrite map_map.
    cbn [fst]. apply map_id. }
  destruct (fit_loop_zero_sum games self1) as (self' & Hloop & Hsum & Hk).
  { eapply Forall_impl; [| exact Hall].
    intros g (h & a & hg & ag & H). exists h, a, hg, ag.
    rewrite Hkeys. exact H. }
  exists self'. split; [exact Hloop |]. split; [congruence |].
  rewrite Hsum. unfold ratings_sum, PyDict.items. subst self1.
  cbn [ratings]. apply Rsum_constant.
Qed.

(** ** Overtime wins *)

(** X17: when the outcome column says ["OTW"], the home rating moves by the
    effective K times (overtime value - expected score).  It rises when the
    expected score was below the overtime value and falls when it was above:
    a strong favourite loses points by winning in overtime. *)
Theorem overtime_win_direction (self : EloModel) (game : Game)
    (h a : string) (hg ag : R) :
  home_team game = Some h -> away_team game = Some a ->
  home_goals game = Some hg -> away_goals game = Some ag ->
  home_outcome game = Some (PyStr "OTW") ->
  h <> a ->
  0 < get (k_factor (params self)) 32 ->
  0 <= get (mov_multiplier (params self)) 0 ->
  let ot := get (ot_win_multiplier (params self)) 0.75 in
  let expected := home_expected_update self h a game in
  exists self' : EloModel,
    update_ratings game self = (self', Ok tt) /\
    rating_of self' h - rating_of self h
      = effective_k self hg ag * (ot - expected) /\
    (expected < ot -> rating_of self h < rating_of self' h) /\
    (ot < expected -> rating_of self' h < rating_of self h).
Proof.
  intros Hh Ha Hhg Hag Hout Hne Hk Hw ot expected.
  destruct (zero_sum_step self game h a hg ag Hh Ha Hhg Hag Hne)
    as (self' & actual & Hact & Hupd & Hdh & _).
  cbv zeta in Hdh.
  pose proof (effective_k_pos self hg ag Hk Hw) as Hkpos.
  unfold home_actual_of in Hact. rewrite Hout in Hact.
  injection Hact as <-.
  assert (Hscore : get_actual_score self (PyStr "OTW") = ot) by reflexivity.
  rewrite Hscore in Hdh. fold expected in Hdh.
  exists self'. split; [exact Hupd |].
  repeat match goal with |- _ /\ _ => split end.
  - rewrite Hdh. lra.
  - intro Hlt. rewrite Hdh. nra.
  - intro Hlt. rewrite Hdh. nra.
Qed.

(** ** First reference of a team *)

(** X18: an update between two different teams raises the sum of the stored
    ratings by 1500 for each of the two teams that was not in the store
    before, and by nothing else. *)
Theorem update_ratings_sum_first_reference (self : EloModel) (game : Game)
    (h a : string) :
  home_team game = Some h -> away_team game = Some a ->
  home_goals game <> None -> away_goals game <> None ->
  h <> a ->
  exists self' : EloModel,
    update_ratings game self = (self', Ok tt) /\
    ratings_sum self' =
      ratings_sum self
      + match PyDict.lookup (ratings self) h with Some _ => 0 | None => 1500 end
      + match PyDict.lookup (ratings self) a with Some _ => 0 | None => 1500 end.
Proof.
  intros Hh Ha Hhg Hag Hne.
  destruct (home_goals game) as [hg |] eqn:Ehg; [| congruence].
  destruct (away_goals game) as [ag |] eqn:Eag; [| congruence].
  destruct (home_actual_of_total self game hg ag Ehg Eag) as [actual Hact].
  pose proof (update_ratings_ok self game h a hg ag actual Hh Ha Ehg Eag Hact)
    as Hupd.
  cbv zeta in Hupd. eexists. split; [exact Hupd |].
  unfold ratings_sum, PyDict.items, rating_of. cbn [ratings].
  set (delta := effective_k self hg ag *
                (actual - home_expected_update self h a game)).
  assert (Hah : String.eqb a h = false) by (apply String.eqb_neq; congruence).
  assert (Hla : forall v, PyDict.lookup
                  (PyDict.setitem (ratings self) h v) a
                = PyDict.lookup (ratings self) a).
  { intro v. rewrite lookup_setitem, Hah. reflexivity. }
  destruct (PyDict.lookup (ratings self) h) as [vh |] eqn:Elh;
    destruct (PyDict.lookup (ratings self) a) as [va |] eqn:Ela; cbn [get].
  - rewrite (Rsum_setitem_bound _ a va) by apply Hla.
    rewrite (Rsum_setitem_bound _ h vh) by exact Elh. lra.
  - rewrite Rsum_setitem_fresh by apply Hla.
    rewrite (Rsum_setitem_bound _ h vh) by exact Elh. lra.
  - rewrite (Rsum_setitem_bound _ a va) by apply Hla.
    rewrite Rsum_setitem_fresh by exact Elh. lra.
  - rewrite Rsum_setitem_fresh by apply Hla.
    rewrite Rsum_setitem_fresh by exact Elh. lra.
Qed.

(** ** The predictor against the update engine *)

(** X19: on a record that names both teams and on which no fallback column
    is in play (it has [away_travel_dist] or no [travel_distance], and for
    each side its own injury column or no shared [injuries]), the predictor
    uses the expected score of the update engine, and [predict_goals]
    returns what the definition it replaced returns. *)
Theorem predictor_matches_update_without_fallbacks (self : EloModel)
    (game : Game) (h a : string) :
  home_team game = Some h -> away_team game = Some a ->
  away_travel_dist game <> None \/ travel_distance game = None ->
  home_injuries game <> None \/ injuries game = None ->
  away_injuries game <> None \/ injuries game = None ->
  predict_goals self game
    = Ok (goals_of_prob (home_expected_update self h a game)) /\
  predict_goals self game = predict_goals_shadowed self game /\
  exists team prob,
    predict_winner self game = Ok (team, prob) /\
    (prob = home_expected_update self h a game \/
     prob = 1 - home_expected_update self h a game).
Proof.
  intros Hh Ha Ht Hhi Hai.
  pose proof (home_expected_predict_agrees self h a game Ht Hhi Hai) as Heq.
  unfold predict_goals, predict_goals_shadowed, predict_winner.
  rewrite Hh, Ha. cbn [getitem rbind]. rewrite Heq.
  split; [reflexivity |]. split; [reflexivity |].
  destruct (Rgtb _ 0.5); eauto.
Qed.

(** X20: a team that is not in the store is predicted exactly as if it were
    stored at 1500, whatever [initial_rating] says. *)
Theorem unseen_team_predicted_at_1500 (self : EloModel) (t : string)
    (game : Game) :
  PyDict.lookup (ratings self) t = None ->
  let self' :=
    {| params := params self;
       ratings := PyDict.setitem (ratings self) t 1500;
       rating_history := rating_history self |} in
  predict_winner self' game = predict_winner self game /\
  predict_goals self' game = predict_goals self game.
Proof.
  intros Hnone self'. unfold predict_winner, predict_goals.
  destruct (home_team game) as [h |]; [| split; reflexivity].
  destruct (away_team game) as [a |]; [| split; reflexivity].
  cbn [getitem rbind].
  destruct (unseen_team_reads_as_1500 self t h a game Hnone) as [_ Hp].
  cbv zeta in Hp. subst self'. rewrite Hp. split; reflexivity.
Qed.

(** ** The further statements at sample inputs *)

Lemma NoDup_A_B : NoDup ["A"; "B"].
Proof.
  constructor; [simpl; intros [H | []]; discriminate |].
  constructor; [simpl; tauto | constructor].
Qed.

Lemma initialize_ratings_baseline_witness :
  exists self' : EloModel,
    initialize_ratings ["A"] None (init params_1400) = (self', Ok tt) /\
    PyDict.lookup (ratings self') "A" = Some 1400.
Proof.
  destruct (initialize_ratings_baseline (init params_1400) ["A"])
    as (self' & Hrun & _ & _ & Hin & _).
  exists self'. split; [exact Hrun |]. apply Hin. left. reflexivity.
Defined.

Lemma initialize_ratings_tiers_witness :
  exists self' : EloModel,
    initialize_ratings ["A"; "B"] (Some ["D1"; "D3"]) (init no_params)
      = (self', Ok tt) /\
    PyDict.lookup (ratings self') "B" = Some (1500 - 100).
Proof.
  destruct (initialize_ratings_tiers (init no_params) ["A"; "B"] ["D1"; "D3"]
              1 "B" NoDup_A_B eq_refl)
    as (self' & Hrun & _ & _ & Hd3 & _).
  exists self'. split; [exact Hrun |]. apply Hd3. reflexivity.
Defined.

Lemma initialize_ratings_idempotent_witness :
  initialize_ratings ["A"] None
    {| params := no_params; ratings := [("A", 1500)]; rating_history := [] |}
  = ({| params := no_params; ratings := [("A", 1500)]; rating_history := [] |},
     Ok tt).
Proof.
  apply (initialize_ratings_idempotent (init no_params)).
  - constructor.
  - reflexivity.
Defined.

Lemma update_ratings_effect_witness :
  exists (self' : EloModel) (rec : HistoryRecord),
    update_ratings (plain_game "A" "B" 3 0) two_team_model = (self', Ok tt) /\
    rating_history self' = [rec] /\
    PyDict.lookup (ratings self') "A" = Some (h_home_rating rec).
Proof.
  destruct (update_ratings_effect two_team_model (plain_game "A" "B" 3 0)
              "A" "B" eq_refl eq_refl)
    as (self' & rec & Hupd & _ & Hhist & _ & _ & Hhome & _);
    [discriminate | discriminate |].
  exists self', rec. repeat split; assumption.
Defined.

Lemma fit_loop_history_witness :
  exists (self' : EloModel) (new : list HistoryRecord),
    fit_loop [plain_game "A" "B" 3 0; plain_game "B" "A" 1 2] (init no_params)
      = (self', Ok tt) /\
    rating_history self' = new /\ List.length new = 2%nat.
Proof.
  destruct (fit_loop_history
              [plain_game "A" "B" 3 0; plain_game "B" "A" 1 2] (init no_params))
    as (self' & new & Hloop & _ & Hhist & Hlen & _).
  - repeat constructor; discriminate.
  - exists self', new. repeat split; assumption.
Defined.

Lemma unique_keys_invariant_witness :
  unique_keys (fst (update_ratings (plain_game "A" "B" 3 0) (init no_params))).
Proof.
  destruct unique_keys_invariant as (Hinit & _ & Hupd & _).
  apply Hupd, Hinit.
Defined.

Lemma calculate_expected_score_shape_witness :
  calculate_expected_score 1500 1400 < calculate_expected_score 1600 1400.
Proof.
  destruct calculate_expected_score_shape as (Hinc & _).
  apply Hinc. lra.
Defined.

Lemma adjust_for_context_bounds_witness :
  adjust_for_context (init no_params) 1500 false 1 1000 2 <= 1500.
Proof.
  destruct (adjust_for_context_bounds (init no_params) 1500 1 1000 2)
    as (_ & _ & Hle).
  apply Hle; simpl; lra.
Defined.

Lemma prediction_shift_invariant_witness :
  predict_winner (shift_ratings 100 two_team_model) (plain_game "A" "B" 3 0)
  = predict_winner two_team_model (plain_game "A" "B" 3 0).
Proof.
  apply (prediction_shift_invariant two_team_model 100
           (plain_game "A" "B" 3 0) "A" "B");
    try reflexivity; simpl; auto.
Defined.

Lemma predict_goals_shape_witness :
  exists home_pred away_pred : R,
    predict_goals (init no_params) (plain_game "A" "B" 3 0)
      = Ok (home_pred, away_pred) /\
    home_pred + away_pred = 6.
Proof.
  destruct (predict_goals_shape (init no_params) (plain_game "A" "B" 3 0)
              "A" "B" eq_refl eq_refl)
    as (hp & ap & Hret & _ & Hsum & _).
  exists hp, ap. split; assumption.
Defined.

Lemma evaluate_missing_key_witness :
  evaluate (init no_params) [plain_game "A" "B" 2 1; no_goals_game]
  = Raise (KeyError "home_goals").
Proof.
  destruct (evaluate_missing_key (init no_params)
              [plain_game "A" "B" 2 1] [] no_goals_game)
    as (key & Hraise & _ & _ & Hkey).
  - repeat constructor; discriminate.
  - right. right. reflexivity.
  - rewrite <- (Hkey ltac:(discriminate) ltac:(discriminate)). exact Hraise.
Defined.

Lemma goal_decided_update_direction_witness :
  exists self' : EloModel,
    update_ratings (plain_game "A" "B" 3 0) two_team_model = (self', Ok tt) /\
    rating_of two_team_model "A" < rating_of self' "A".
Proof.
  destruct (goal_decided_update_direction two_team_model
              (plain_game "A" "B" 3 0) "A" "B" 3 0)
    as (self' & Hupd & Hwin & _);
    try reflexivity; try discriminate; try (simpl; lra).
  exists self'. split; [exact Hupd |]. apply Hwin. lra.
Defined.

Lemma update_ratings_change_bounded_witness :
  exists self' : EloModel,
    update_ratings (plain_game "A" "B" 3 0) two_team_model = (self', Ok tt) /\
    Rabs (rating_of self' "A" - rating_of two_team_model "A")
      < effective_k two_team_model 3 0.
Proof.
  destruct (update_ratings_change_bounded two_team_model
              (plain_game "A" "B" 3 0) "A" "B" 3 0)
    as (self' & Hupd & Hhome & _);
    try reflexivity; try discriminate; try (simpl; lra).
  exists self'. split; assumption.
Defined.

Lemma calculate_mov_multiplier_shape_witness :
  calculate_mov_multiplier (init params_linear) 1
    <= calculate_mov_multiplier (init params_linear) 3.
Proof.
  destruct calculate_mov_multiplier_shape as (_ & _ & Hmono & _).
  apply Hmono.
  - simpl. lra.
  - rewrite !Rabs_pos_eq by lra. lra.
Defined.

Lemma get_rankings_order_witness :
  List.length (get_rankings two_team_model (Some 1%Z)) = 1%nat.
Proof.
  destruct (get_rankings_order two_team_model) as (_ & Htop & _).
  destruct (Htop 1%Z) as (rest & _ & Hlen & _); [lia |].
  exact Hlen.
Defined.

Lemma fit_conserves_total_witness :
  exists self' : EloModel,
    fit ["A"; "B"] None [plain_game "A" "B" 3 0] (init no_params)
      = (self', Ok tt) /\
    ratings_sum self' = INR 2 * 1500.
Proof.
  destruct (fit_conserves_total no_params ["A"; "B"]
              [plain_game "A" "B" 3 0] NoDup_A_B)
    as (self' & Hfit & _ & Hsum).
  - constructor; [| constructor].
    exists "A", "B", 3, 0.
    repeat split; try reflexivity; [discriminate | simpl; auto | simpl; auto].
  - exists self'. split; assumption.
Defined.

Lemma overtime_win_direction_witness :
  exists self' : EloModel,
    update_ratings overtime_game two_team_model = (self', Ok tt) /\
    rating_of self' "A" - rating_of two_team_model "A"
      = effective_k two_team_model 3 2 *
        (0.75 - home_expected_update two_team_model "A" "B" overtime_game).
Proof.
  destruct (overtime_win_direction two_team_model overtime_game "A" "B" 3 2)
    as (self' & Hupd & Hdelta & _);
    try reflexivity; try discriminate; try (simpl; lra).
  exists self'. split; assumption.
Defined.

Lemma update_ratings_sum_first_reference_witness :
  exists self' : EloModel,
    update_ratings (plain_game "A" "B" 3 0) (init no_params) = (self', Ok tt) /\
    ratings_sum self' = ratings_sum (init no_params) + 1500 + 1500.
Proof.
  destruct (update_ratings_sum_first_reference (init no_params)
              (plain_game "A" "B" 3 0) "A" "B")
    as (self' & Hupd & Hsum); try reflexivity; try discriminate.
  exists self'. split; assumption.
Defined.

Lemma predictor_matches_update_without_fallbacks_witness :
  predict_goals two_team_model (plain_game "A" "B" 3 0)
  = predict_goals_shadowed two_team_model (plain_game "A" "B" 3 0).
Proof.
  apply (predictor_matches_update_without_fallbacks two_team_model
           (plain_game "A" "B" 3 0) "A" "B");
    try reflexivity; right; reflexivity.
Defined.

Lemma unseen_team_predicted_at_1500_witness :
  predict_winner
    {| params := params_1400; ratings := [("B", 1500)]; rating_history := [] |}
    (plain_game "A" "B" 3 0)
  = predict_winner (init params_1400) (plain_game "A" "B" 3 0).
Proof.
  apply (unseen_team_predicted_at_1500 (init params_1400) "B"
           (plain_game "A" "B" 3 0)).
  reflexivity.
Defined.
